(** * NCBI GenBank retriever (s26604_2025.py): shallow embedding

    The script asks for five inputs, searches the nucleotide database for a
    taxonomic id, fetches one batch of GenBank records, keeps the records
    whose sequence length lies in a range, and writes a CSV table and a
    line chart.

    Biopython (Entrez, SeqIO), the csv module, matplotlib, the file system
    and the builtin [int] are collaborators of the script: they are taken
    as oracles in the record [Externals], each of which may answer or
    raise.  Everything the script itself does is written out below in a
    state-and-exception monad over an explicit [World]. *)

From Stdlib Require Import ZArith List Bool Lia DecimalString.
From Stdlib Require Import Sorting.Permutation Sorting.Sorted.
From stdpp Require Import gmap strings list.

Set Warnings "-register-all".

Local Open Scope string_scope.
Local Open Scope list_scope.
Local Open Scope Z_scope.

(** ** Python values and exceptions *)

(** The values that cross function boundaries untyped in the script:
    [search_taxid] returns [None] or an int, [fetch_records] returns a list
    or a str, and csv cells are strs and ints. *)
Inductive py_value :=
| PyNone
| PyInt (n : Z)
| PyStr (s : string)
| PyList (l : list py_value).

(** Truth value testing, as used by [if not count] and
    [if not filtered_data]. *)
Definition truthy (v : py_value) : bool :=
  match v with
  | PyNone => false
  | PyInt n => negb (n =? 0)
  | PyStr s => negb (String.eqb s "")
  | PyList l => match l with [] => false | _ :: _ => true end
  end.

(** [str(n)] for an int. *)
Definition str_Z (n : Z) : string := NilZero.string_of_int (Z.to_int n).

(** An exception is either an instance of [Exception] (class name and
    message), which [except Exception] catches, or one of the
    [BaseException]s outside it (KeyboardInterrupt, SystemExit), which it
    lets through. *)
Inductive exn :=
| Exc (cls msg : string)
| BaseExc (cls : string).

(** [str(e)], as interpolated by the f-strings of the handlers. *)
Definition str_exn (e : exn) : string :=
  match e with
  | Exc _ msg => msg
  | BaseExc _ => ""
  end.

Inductive Outcome (A : Type) :=
| Ret (a : A)
| Raise (e : exn).
Arguments Ret {A} a.
Arguments Raise {A} e.

(** ** Data of the script *)

(** A record as produced by [SeqIO.parse]: the three attributes the script
    reads. *)
Record SeqRecord := {
  id : string;
  seq : string;
  description : string
}.

(** The dict appended to [filtered_data]; its keys are exactly
    "accession", "length" and "description". *)
Record Summary := {
  accession : string;
  length_ : Z;
  description_ : string
}.

(** Arguments of the nucleotide [Entrez.efetch] call. *)
Record EfetchRequest := {
  db : string;
  rettype : string;
  retmode : string;
  retstart : Z;
  retmax : Z;
  req_webenv : string;
  req_query_key : string
}.

(** Module-level settings of [Bio.Entrez], assigned by
    [NCBIRetriever.__init__]. *)
Record EntrezConfig := {
  entrez_email : option string;
  entrez_api_key : option string;
  entrez_tool : option string
}.

(** An [NCBIRetriever] instance.  [webenv], [query_key] and [count] are
    attributes that exist only once [search_taxid] has assigned them, so
    [hasattr] is [is_Some]. *)
Record NCBIRetriever := {
  email : string;
  api_key : string;
  webenv : option string;
  query_key : option string;
  count : option Z
}.

(** The state of one pyplot figure, as far as the script sets it. *)
Record Figure := {
  figsize : option (Z * Z);
  lines : list (list string * list Z * string);
  xticks_rotation : option Z;
  xlabel : option string;
  ylabel : option string;
  title : option string;
  tight : bool
}.

Definition new_figure (size : option (Z * Z)) : Figure :=
  {| figsize := size; lines := []; xticks_rotation := None;
     xlabel := None; ylabel := None; title := None; tight := false |}.

(** What a file holds: the rows written by the csv writer, cell by cell,
    or the figure rendered into an image. *)
Inductive file_content :=
| CsvFile (rows : list (list py_value))
| PngFile (fig : Figure).

(** The pyplot calls of [plot_data]. *)
Inductive plt_op :=
| PltFigure (size : Z * Z)
| PltPlot (xs : list string) (ys : list Z) (marker : string)
| PltXticks (rotation : Z)
| PltXlabel (s : string)
| PltYlabel (s : string)
| PltTitle (s : string)
| PltTightLayout
| PltSavefig (filename : string)
| PltClose.

(** What the script does to the outside, in order. *)
Inductive event :=
| EvPrompt (prompt : string)
| EvPrint (line : string)
| EvTaxonomyEfetch (cfg : EntrezConfig) (taxid : string)
| EvEsearch (cfg : EntrezConfig) (term : string)
| EvNucleotideEfetch (cfg : EntrezConfig) (req : EfetchRequest)
| EvOpenWrite (filename : string)
| EvWriteRow (filename : string) (row : list py_value)
| EvCloseFile (filename : string)
| EvPlt (op : plt_op).

Definition is_network (e : event) : bool :=
  match e with
  | EvTaxonomyEfetch _ _ | EvEsearch _ _ | EvNucleotideEfetch _ _ => true
  | _ => false
  end.

Definition is_file_write (e : event) : bool :=
  match e with
  | EvOpenWrite _ | EvWriteRow _ _ | EvPlt (PltSavefig _) => true
  | _ => false
  end.

(** ** The collaborators *)

Record Externals := {
  (** [int(s)] on a str: [None] stands for ValueError. *)
  py_int : string -> option Z;
  (** [repr(s)] of a str, as the message of that ValueError shows it. *)
  py_repr : string -> string;
  (** [Entrez.read(Entrez.efetch(db="taxonomy", id=..., retmode="xml"))]. *)
  taxonomy_efetch : EntrezConfig -> string -> exn + list (gmap string string);
  (** [Entrez.read(Entrez.esearch(db="nucleotide", term=..., usehistory="y"))]. *)
  nucleotide_esearch : EntrezConfig -> string -> exn + gmap string string;
  (** [Entrez.efetch(db="nucleotide", ...).read()]. *)
  nucleotide_efetch : EntrezConfig -> EfetchRequest -> exn + string;
  (** [SeqIO.parse(handle, "genbank")]: the records the generator yields,
      and the exception that ends the iteration if it raises. *)
  SeqIO_parse : string -> list SeqRecord * option exn;
  (** [open(filename, mode="w", newline='')]: the exception, if any. *)
  open_write : string -> option exn;
  (** a pyplot call: the exception, if any. *)
  plt_raises : plt_op -> option exn
}.

(** ** The world and the monad *)

Record World := {
  stdin : list string;
  trace : list event;
  entrez : EntrezConfig;
  files : gmap string file_content;
  figures : list Figure
}.

Definition M (S A : Type) : Type := S -> Outcome A * S.

Definition ret {S A} (a : A) : M S A := fun s => (Ret a, s).

Definition raise {S A} (e : exn) : M S A := fun s => (Raise e, s).

Definition bind {S A B} (m : M S A) (k : A -> M S B) : M S B :=
  fun s =>
    match m s with
    | (Ret a, s') => k a s'
    | (Raise e, s') => (Raise e, s')
    end.

Notation "x <- m ;; k" := (bind m (fun x => k))
  (at level 100, m at next level, right associativity).
Notation "m ;;; k" := (bind m (fun _ => k))
  (at level 100, right associativity).

(** [try: body except Exception as e: handler e]. *)
Definition try_except {S A} (body : M S A) (handler : exn -> M S A) : M S A :=
  fun s =>
    match body s with
    | (Raise (Exc cls msg), s') => handler (Exc cls msg) s'
    | r => r
    end.

(** [try: body finally: cleanup], the shape of a [with] block's exit. *)
Definition finally {S A} (body : M S A) (cleanup : M S unit) : M S A :=
  fun s =>
    match body s with
    | (Ret a, s') =>
        match cleanup s' with
        | (Ret _, s'') => (Ret a, s'')
        | (Raise e, s'') => (Raise e, s'')
        end
    | (Raise e, s') =>
        match cleanup s' with
        | (Ret _, s'') => (Raise e, s'')
        | (Raise e', s'') => (Raise e', s'')
        end
    end.

(** A method body runs on the instance and the world together. *)
Definition lift {A} (m : M World A) : M (NCBIRetriever * World) A :=
  fun s =>
    match m (snd s) with
    | (r, w') => (r, (fst s, w'))
    end.

Definition get_self : M (NCBIRetriever * World) NCBIRetriever :=
  fun s => (Ret (fst s), s).

Definition set_self (o : NCBIRetriever) : M (NCBIRetriever * World) unit :=
  fun s => (Ret tt, (o, snd s)).

(** [obj.method(...)] from a function that holds [obj] in a local. *)
Definition call {A} (self : NCBIRetriever) (m : M (NCBIRetriever * World) A)
  : M World (A * NCBIRetriever) :=
  fun w =>
    match m (self, w) with
    | (Ret a, (self', w')) => (Ret (a, self'), w')
    | (Raise e, (_, w')) => (Raise e, w')
    end.

(** *** Primitive effects *)

Definition emit (e : event) : M World unit :=
  fun w =>
    (Ret tt, {| stdin := stdin w; trace := trace w ++ [e]; entrez := entrez w;
                files := files w; figures := figures w |}).

Definition print (line : string) : M World unit := emit (EvPrint line).

(** [input(prompt)]: the next line of standard input, EOFError at its end. *)
Definition input (prompt : string) : M World string :=
  fun w =>
    match stdin w with
    | [] =>
        (Raise (Exc "EOFError" "EOF when reading a line"),
         {| stdin := []; trace := trace w ++ [EvPrompt prompt];
            entrez := entrez w; files := files w; figures := figures w |})
    | line :: rest =>
        (Ret line,
         {| stdin := rest; trace := trace w ++ [EvPrompt prompt];
            entrez := entrez w; files := files w; figures := figures w |})
    end.

Definition get_entrez : M World EntrezConfig := fun w => (Ret (entrez w), w).

Definition set_entrez (cfg : EntrezConfig) : M World unit :=
  fun w =>
    (Ret tt, {| stdin := stdin w; trace := trace w; entrez := cfg;
                files := files w; figures := figures w |}).

Definition set_file (filename : string) (c : file_content) : M World unit :=
  fun w =>
    (Ret tt, {| stdin := stdin w; trace := trace w; entrez := entrez w;
                files := <[filename := c]> (files w); figures := figures w |}).

Definition get_file (filename : string) : M World (option file_content) :=
  fun w => (Ret (files w !! filename), w).

Definition of_sum {S A} (r : exn + A) : M S A :=
  match r with
  | inl e => raise e
  | inr a => ret a
  end.

Definition of_outcome {S A} (r : Outcome A) : M S A := fun s => (r, s).

(** [for x in xs: body x]. *)
Fixpoint for_each {S A} (xs : list A) (body : A -> M S unit) : M S unit :=
  match xs with
  | [] => ret tt
  | x :: rest => body x ;;; for_each rest body
  end.

(** [l[0]] *)
Definition index0 {S A} (l : list A) : M S A :=
  match l with
  | [] => raise (Exc "IndexError" "list index out of range")
  | x :: _ => ret x
  end.

(** [d[key]] *)
Definition getitem {S} (d : gmap string string) (key : string) : M S string :=
  match d !! key with
  | Some v => ret v
  | None => raise (Exc "KeyError" ("'" +:+ key +:+ "'"))
  end.

(** [self.name] for an attribute that may not have been assigned. *)
Definition getattr {S A} (name : string) (field : option A) : M S A :=
  match field with
  | Some v => ret v
  | None =>
      raise (Exc "AttributeError"
               ("'NCBIRetriever' object has no attribute '" +:+ name +:+ "'"))
  end.

Definition hasattr {A} (field : option A) : bool :=
  match field with
  | Some _ => true
  | None => false
  end.

(** [sorted(l, key=key, reverse=True)]: the builtin is a stable sort and
    keeps elements with equal keys in their original order also when
    reversed.  An element is inserted in front of the first element whose
    key is not larger than its own. *)
Fixpoint insert_desc {A} (key : A -> Z) (x : A) (l : list A) : list A :=
  match l with
  | [] => [x]
  | y :: l' =>
      if key x <? key y then y :: insert_desc key x l' else x :: y :: l'
  end.

Definition sorted_reverse {A} (key : A -> Z) (l : list A) : list A :=
  fold_right (insert_desc key) [] l.

(** The first line of [plot_data]:
    [sorted(data, key=lambda x: x["length"], reverse=True)]. *)
Definition data_sorted (data : list Summary) : list Summary :=
  sorted_reverse length_ data.

(** ** The script *)

Section Script.

Context (E : Externals).

(** [int(s)] *)
Definition int_ {S} (s : string) : M S Z :=
  match py_int E s with
  | Some n => ret n
  | None =>
      raise (Exc "ValueError"
               ("invalid literal for int() with base 10: " +:+ py_repr E s))
  end.

(** [NCBIRetriever.__init__] *)
Definition NCBIRetriever_init (email api_key : string) : M World NCBIRetriever :=
  set_entrez {| entrez_email := Some email; entrez_api_key := Some api_key;
                entrez_tool := Some "BioScriptEx10" |} ;;;
  ret {| email := email; api_key := api_key;
         webenv := None; query_key := None; count := None |}.

(** The body of the [try] in [search_taxid]. *)
Definition search_taxid_body (taxid : string) : M (NCBIRetriever * World) py_value :=
  cfg <- lift get_entrez ;;
  lift (emit (EvTaxonomyEfetch cfg taxid)) ;;;
  records <- of_sum (taxonomy_efetch E cfg taxid) ;;
  first <- index0 records ;;
  organism_name <- getitem first "ScientificName" ;;
  lift (print ("Organism: " +:+ organism_name +:+ " (TaxID: " +:+ taxid +:+ ")")) ;;;
  let search_term := "txid" +:+ taxid +:+ "[Organism]" in
  cfg <- lift get_entrez ;;
  lift (emit (EvEsearch cfg search_term)) ;;;
  search_results <- of_sum (nucleotide_esearch E cfg search_term) ;;
  count_str <- getitem search_results "Count" ;;
  count' <- int_ count_str ;;
  if count' =? 0 then
    lift (print ("No records found for " +:+ organism_name)) ;;;
    ret PyNone
  else
    lift (print ("Found " +:+ str_Z count' +:+ " records")) ;;;
    we <- getitem search_results "WebEnv" ;;
    self <- get_self ;;
    set_self {| email := email self; api_key := api_key self;
                webenv := Some we; query_key := query_key self;
                count := count self |} ;;;
    qk <- getitem search_results "QueryKey" ;;
    self <- get_self ;;
    set_self {| email := email self; api_key := api_key self;
                webenv := webenv self; query_key := Some qk;
                count := count self |} ;;;
    self <- get_self ;;
    set_self {| email := email self; api_key := api_key self;
                webenv := webenv self; query_key := query_key self;
                count := Some count' |} ;;;
    ret (PyInt count').

Definition search_taxid (taxid : string) : M (NCBIRetriever * World) py_value :=
  lift (print ("Searching for records with taxID: " +:+ taxid)) ;;;
  try_except (search_taxid_body taxid)
    (fun e =>
       lift (print ("Error searching TaxID " +:+ taxid +:+ ": " +:+ str_exn e)) ;;;
       ret PyNone).

Definition fetch_records (start max_records : Z) : M (NCBIRetriever * World) py_value :=
  self <- get_self ;;
  if negb (hasattr (webenv self)) || negb (hasattr (query_key self)) then
    lift (print "No search results to fetch. Run search_taxid() first.") ;;;
    ret (PyList [])
  else
    try_except
      (let batch_size := Z.min max_records 500 in
       self <- get_self ;;
       we <- getattr "webenv" (webenv self) ;;
       qk <- getattr "query_key" (query_key self) ;;
       let req := {| db := "nucleotide"; rettype := "gb"; retmode := "text";
                     retstart := start; retmax := batch_size;
                     req_webenv := we; req_query_key := qk |} in
       cfg <- lift get_entrez ;;
       lift (emit (EvNucleotideEfetch cfg req)) ;;;
       records_text <- of_sum (nucleotide_efetch E cfg req) ;;
       ret (PyStr records_text))
      (fun e =>
         lift (print ("Error fetching records: " +:+ str_exn e)) ;;;
         ret (PyStr "")).

(** [StringIO(gb_text)]: a str or None is accepted, anything else is a
    TypeError. *)
Definition StringIO (gb_text : py_value) : Outcome string :=
  match gb_text with
  | PyStr s => Ret s
  | PyNone => Ret ""
  | PyInt _ =>
      Raise (Exc "TypeError" "initial_value must be str or None, not int")
  | PyList _ =>
      Raise (Exc "TypeError" "initial_value must be str or None, not list")
  end.

(** One iteration of the loop of [filter_and_parse_sequences], on the
    list [filtered_data] built so far. *)
Definition filter_step (min_len max_len : Z) (filtered_data : list Summary)
    (record : SeqRecord) : list Summary :=
  let seq_len := Z.of_nat (String.length (seq record)) in
  if (min_len <=? seq_len) && (seq_len <=? max_len) then
    filtered_data ++ [ {| accession := id record; length_ := seq_len;
                          description_ := description record |} ]
  else filtered_data.

Definition filter_and_parse_sequences (gb_text : py_value) (min_len max_len : Z)
  : Outcome (list Summary) :=
  match StringIO gb_text with
  | Raise e => Raise e
  | Ret handle =>
      let '(records, err) := SeqIO_parse E handle in
      let filtered_data := fold_left (filter_step min_len max_len) records [] in
      match err with
      | Some e => Raise e
      | None => Ret filtered_data
      end
  end.


Definition fieldnames : list string := ["accession"; "length"; "description"].

(** [rowdict.get(key)] on a dict of [filtered_data]. *)
Definition dict_get (rowdict : Summary) (key : string) : option py_value :=
  if String.eqb key "accession" then Some (PyStr (accession rowdict))
  else if String.eqb key "length" then Some (PyInt (length_ rowdict))
  else if String.eqb key "description" then Some (PyStr (description_ rowdict))
  else None.

(** [DictWriter._dict_to_list]: the cells in the order of [fieldnames],
    the empty string where the dict has no such key.  The dicts of
    [filtered_data] have no key outside [fieldnames], so the check for
    extra keys never raises. *)
Definition dict_to_list (rowdict : Summary) : list py_value :=
  map (fun key => default (PyStr "") (dict_get rowdict key)) fieldnames.

Definition rows_of (c : option file_content) : list (list py_value) :=
  match c with
  | Some (CsvFile rows) => rows
  | _ => []
  end.

(** [writer.writerow] of the underlying csv writer: one more row in the
    file. *)
Definition csv_writerow (filename : string) (row : list py_value) : M World unit :=
  emit (EvWriteRow filename row) ;;;
  c <- get_file filename ;;
  set_file filename (CsvFile (rows_of c ++ [row])).

(** [open(filename, mode="w", newline='')]: creates or truncates. *)
Definition open_w (filename : string) : M World unit :=
  emit (EvOpenWrite filename) ;;;
  match open_write E filename with
  | Some e => raise e
  | None => set_file filename (CsvFile [])
  end.

Definition save_csv (data : list Summary) (filename : string) : M World unit :=
  open_w filename ;;;
  finally
    (csv_writerow filename (map PyStr fieldnames) ;;;
     for_each data (fun row => csv_writerow filename (dict_to_list row)))
    (emit (EvCloseFile filename)) ;;;
  print ("CSV saved to " +:+ filename).

(** The figure a pyplot call acts on: the current one, created on demand. *)
Definition on_current (f : Figure -> Figure) (figs : list Figure) : list Figure :=
  match figs with
  | [] => [f (new_figure None)]
  | cur :: rest => f cur :: rest
  end.

Definition plt_effect (op : plt_op) (w : World) : World :=
  let upd f :=
    {| stdin := stdin w; trace := trace w; entrez := entrez w;
       files := files w; figures := on_current f (figures w) |} in
  match op with
  | PltFigure size =>
      {| stdin := stdin w; trace := trace w; entrez := entrez w;
         files := files w; figures := new_figure (Some size) :: figures w |}
  | PltPlot xs ys marker =>
      upd (fun g => {| figsize := figsize g; lines := lines g ++ [(xs, ys, marker)];
                       xticks_rotation := xticks_rotation g; xlabel := xlabel g;
                       ylabel := ylabel g; title := title g; tight := tight g |})
  | PltXticks rotation =>
      upd (fun g => {| figsize := figsize g; lines := lines g;
                       xticks_rotation := Some rotation; xlabel := xlabel g;
                       ylabel := ylabel g; title := title g; tight := tight g |})
  | PltXlabel s =>
      upd (fun g => {| figsize := figsize g; lines := lines g;
                       xticks_rotation := xticks_rotation g; xlabel := Some s;
                       ylabel := ylabel g; title := title g; tight := tight g |})
  | PltYlabel s =>
      upd (fun g => {| figsize := figsize g; lines := lines g;
                       xticks_rotation := xticks_rotation g; xlabel := xlabel g;
                       ylabel := Some s; title := title g; tight := tight g |})
  | PltTitle s =>
      upd (fun g => {| figsize := figsize g; lines := lines g;
                       xticks_rotation := xticks_rotation g; xlabel := xlabel g;
                       ylabel := ylabel g; title := Some s; tight := tight g |})
  | PltTightLayout =>
      upd (fun g => {| figsize := figsize g; lines := lines g;
                       xticks_rotation := xticks_rotation g; xlabel := xlabel g;
                       ylabel := ylabel g; title := title g; tight := true |})
  | PltSavefig filename =>
      let figs := on_current (fun g => g) (figures w) in
      {| stdin := stdin w; trace := trace w; entrez := entrez w;
         files := <[filename := PngFile (hd (new_figure None) figs)]> (files w);
         figures := figs |}
  | PltClose =>
      {| stdin := stdin w; trace := trace w; entrez := entrez w;
         files := files w; figures := tl (figures w) |}
  end.

(** A pyplot call: it either raises, leaving the figures as they are, or
    takes effect. *)
Definition plt (op : plt_op) : M World unit :=
  emit (EvPlt op) ;;;
  match plt_raises E op with
  | Some e => raise e
  | None => fun w => (Ret tt, plt_effect op w)
  end.

Definition plot_data (data : list Summary) (filename : string) : M World unit :=
  let accessions := map accession (data_sorted data) in
  let lengths := map length_ (data_sorted data) in
  plt (PltFigure (12, 6)) ;;;
  plt (PltPlot accessions lengths "o") ;;;
  plt (PltXticks 90) ;;;
  plt (PltXlabel "GenBank Accession Number") ;;;
  plt (PltYlabel "Sequence Length") ;;;
  plt (PltTitle "Sequence Lengths by GenBank Accession") ;;;
  plt PltTightLayout ;;;
  plt (PltSavefig filename) ;;;
  print ("Chart saved to " +:+ filename) ;;;
  plt PltClose.

Definition main : M World unit :=
  email <- input "Enter your email address for NCBI: " ;;
  api_key <- input "Enter your NCBI API key: " ;;
  taxid <- input "Enter taxonomic ID (taxid) of the organism: " ;;
  min_str <- input "Enter minimum sequence length: " ;;
  min_len <- int_ min_str ;;
  max_str <- input "Enter maximum sequence length: " ;;
  max_len <- int_ max_str ;;
  retriever <- NCBIRetriever_init email api_key ;;
  r <- call retriever (search_taxid taxid) ;;
  let '(count, retriever) := r in
  if negb (truthy count) then
    print "No records found. Exiting."
  else
    print (String (Ascii.ascii_of_nat 10) "Fetching records from GenBank...") ;;;
    r <- call retriever (fetch_records 0 100) ;;
    let '(all_records_text, retriever) := r in
    print "Filtering and parsing sequences..." ;;;
    filtered_data <-
      of_outcome (filter_and_parse_sequences all_records_text min_len max_len) ;;
    if match filtered_data with [] => true | _ :: _ => false end then
      print "No sequences matched the length filter."
    else
      let csv_file := "taxid_" +:+ taxid +:+ "_filtered.csv" in
      let chart_file := "taxid_" +:+ taxid +:+ "_chart.png" in
      save_csv filtered_data csv_file ;;;
      plot_data filtered_data chart_file ;;;
      print (String (Ascii.ascii_of_nat 10) "Task complete!").

(** [main] up to the length filter: the taxid read, what [search_taxid]
    returned, and the filtered list when the run gets that far. *)
Definition main_filtered : M World (string * py_value * option (list Summary)) :=
  email <- input "Enter your email address for NCBI: " ;;
  api_key <- input "Enter your NCBI API key: " ;;
  taxid <- input "Enter taxonomic ID (taxid) of the organism: " ;;
  min_str <- input "Enter minimum sequence length: " ;;
  min_len <- int_ min_str ;;
  max_str <- input "Enter maximum sequence length: " ;;
  max_len <- int_ max_str ;;
  retriever <- NCBIRetriever_init email api_key ;;
  r <- call retriever (search_taxid taxid) ;;
  let '(count, retriever) := r in
  if negb (truthy count) then
    ret (taxid, count, None)
  else
    print (String (Ascii.ascii_of_nat 10) "Fetching records from GenBank...") ;;;
    r <- call retriever (fetch_records 0 100) ;;
    let '(all_records_text, retriever) := r in
    print "Filtering and parsing sequences..." ;;;
    filtered_data <-
      of_outcome (filter_and_parse_sequences all_records_text min_len max_len) ;;
    ret (taxid, count, Some filtered_data).

(** The rest of [main]. *)
Definition main_report (taxid : string) (filtered : option (list Summary))
  : M World unit :=
  match filtered with
  | None => print "No records found. Exiting."
  | Some [] => print "No sequences matched the length filter."
  | Some filtered_data =>
      let csv_file := "taxid_" +:+ taxid +:+ "_filtered.csv" in
      let chart_file := "taxid_" +:+ taxid +:+ "_chart.png" in
      save_csv filtered_data csv_file ;;;
      plot_data filtered_data chart_file ;;;
      print (String (Ascii.ascii_of_nat 10) "Task complete!")
  end.

End Script.

(** ** Definitions used to state the properties *)

(** The test of the loop, [min_len <= seq_len <= max_len]. *)
Definition in_range (min_len max_len : Z) (record : SeqRecord) : bool :=
  let seq_len := Z.of_nat (String.length (seq record)) in
  (min_len <=? seq_len) && (seq_len <=? max_len).

(** The dict the loop appends for a record it keeps. *)
Definition summarize (record : SeqRecord) : Summary :=
  {| accession := id record;
     length_ := Z.of_nat (String.length (seq record));
     description_ := description record |}.

(** Descending order of keys, and the elements of one key. *)
Definition key_ge {A} (key : A -> Z) (x y : A) : Prop := key x >= key y.

Definition has_key {A} (key : A -> Z) (k : Z) (x : A) : bool := key x =? k.

(** [w] after the events [evs], nothing else changed. *)
Definition add_events (w : World) (evs : list event) : World :=
  {| stdin := stdin w; trace := trace w ++ evs; entrez := entrez w;
     files := files w; figures := figures w |}.

(** The nucleotide fetch requests of a trace, in order. *)
Fixpoint efetch_requests (evs : list event) : list EfetchRequest :=
  match evs with
  | [] => []
  | EvNucleotideEfetch _ req :: rest => req :: efetch_requests rest
  | _ :: rest => efetch_requests rest
  end.

(** The request that [fetch_records] builds from its arguments and the
    session. *)
Definition fetch_request (start max_records : Z) (we qk : string) : EfetchRequest :=
  {| db := "nucleotide"; rettype := "gb"; retmode := "text";
     retstart := start; retmax := Z.min max_records 500;
     req_webenv := we; req_query_key := qk |}.

(** The line [fetch_records] prints when there is no session. *)
Definition no_session_message : string :=
  "No search results to fetch. Run search_taxid() first.".

(** [w] with its files, respectively its figures, replaced. *)
Definition with_files (w : World) (fs : gmap string file_content) : World :=
  {| stdin := stdin w; trace := trace w; entrez := entrez w;
     files := fs; figures := figures w |}.

(** The rows of the table: the header and the row of one record. *)
Definition header_row : list py_value :=
  [PyStr "accession"; PyStr "length"; PyStr "description"].

Definition data_row (r : Summary) : list py_value :=
  [PyStr (accession r); PyInt (length_ r); PyStr (description_ r)].

(** The figure [plot_data] has built when it reaches [plt.savefig]. *)
Definition chart_figure (data : list Summary) : Figure :=
  {| figsize := Some (12, 6);
     lines := [(map accession (data_sorted data),
                map length_ (data_sorted data), "o")];
     xticks_rotation := Some 90;
     xlabel := Some "GenBank Accession Number";
     ylabel := Some "Sequence Length";
     title := Some "Sequence Lengths by GenBank Accession";
     tight := true |}.

(** The pyplot calls of [plot_data] before [plt.savefig]. *)
Definition chart_setup (data : list Summary) : list plt_op :=
  [PltFigure (12, 6);
   PltPlot (map accession (data_sorted data)) (map length_ (data_sorted data)) "o";
   PltXticks 90;
   PltXlabel "GenBank Accession Number";
   PltYlabel "Sequence Length";
   PltTitle "Sequence Lengths by GenBank Accession";
   PltTightLayout].

Definition with_figures (w : World) (figs : list Figure) : World :=
  {| stdin := stdin w; trace := trace w; entrez := entrez w;
     files := files w; figures := figs |}.

(** A stand-in for [int] on signed decimal literals. *)
Definition decimal_int (s : string) : option Z :=
  option_map Z.of_int (NilZero.int_of_string s).

(** A stand-in for [repr] on a str that holds no quote, backslash or
    control character. *)
Definition quoted (s : string) : string := "'" +:+ s +:+ "'".

(** A sequence of [n] bases. *)
Fixpoint bases (n : nat) : string :=
  match n with
  | O => ""
  | S n' => String (Ascii.ascii_of_nat 65) (bases n')
  end.

(** Three records of 300, 750 and 1200 bases. *)
Definition example_records : list SeqRecord :=
  [ {| id := "AB000300.1"; seq := bases 300; description := "short record" |};
    {| id := "AB000750.1"; seq := bases 750; description := "middle record" |};
    {| id := "AB001200.1"; seq := bases 1200; description := "long record" |} ].

(** A service that knows one organism with three records, a parser that
    finds them in any non-empty text, a writable directory, and a pyplot
    whose [savefig] fails when [savefig_fails] is set. *)
Definition example_env (savefig_fails : bool) : Externals :=
  {| py_int := decimal_int;
     py_repr := quoted;
     taxonomy_efetch := fun _ _ =>
       inr [ {[ "ScientificName" := "Homo sapiens" ]} ];
     nucleotide_esearch := fun _ _ =>
       inr (<["Count" := "3"]> (<["WebEnv" := "MCID_1"]> {[ "QueryKey" := "1" ]}));
     nucleotide_efetch := fun _ _ => inr "LOCUS";
     SeqIO_parse := fun s =>
       if String.eqb s "" then ([], None) else (example_records, None);
     open_write := fun _ => None;
     plt_raises := fun op =>
       match op with
       | PltSavefig _ =>
           if savefig_fails then Some (Exc "PermissionError" "Permission denied")
           else None
       | _ => None
       end |}.

(** The same service when the search matches nothing. *)
Definition no_records_env : Externals :=
  {| py_int := decimal_int;
     py_repr := quoted;
     taxonomy_efetch := taxonomy_efetch (example_env false);
     nucleotide_esearch := fun _ _ => inr {[ "Count" := "0" ]};
     nucleotide_efetch := nucleotide_efetch (example_env false);
     SeqIO_parse := SeqIO_parse (example_env false);
     open_write := open_write (example_env false);
     plt_raises := plt_raises (example_env false) |}.

(** A fresh process: nothing printed, no file, no figure, [lines] waiting
    on standard input. *)
Definition empty_world (lines : list string) : World :=
  {| stdin := lines; trace := [];
     entrez := {| entrez_email := None; entrez_api_key := None;
                  entrez_tool := None |};
     files := ∅; figures := [] |}.

(** Two records in ascending order of length. *)
Definition example_data : list Summary :=
  [ {| accession := "AB000750.1"; length_ := 750; description_ := "middle record" |};
    {| accession := "AB001200.1"; length_ := 1200; description_ := "long record" |} ].

(** [w'] comes from [w] by reading input, configuring Entrez and events
    that write no file: the files and the figures are those of [w]. *)
Definition writes_no_file (w w' : World) : Prop :=
  files w' = files w
  /\ figures w' = figures w
  /\ exists evs : list event,
       trace w' = trace w ++ evs
       /\ forallb (fun e => negb (is_file_write e)) evs = true.

(** The term [search_taxid] searches the nucleotide database for. *)
Definition search_term (taxid : string) : string :=
  "txid" +:+ taxid +:+ "[Organism]".

(** The instance [__init__] leaves behind, and the Entrez settings it
    assigns. *)
Definition fresh_retriever (email api_key : string) : NCBIRetriever :=
  {| email := email; api_key := api_key;
     webenv := None; query_key := None; count := None |}.

Definition entrez_settings (email api_key : string) : EntrezConfig :=
  {| entrez_email := Some email; entrez_api_key := Some api_key;
     entrez_tool := Some "BioScriptEx10" |}.

(** [w'] has the files of [w], except possibly those named in [names]. *)
Definition files_except (names : list string) (w w' : World) : Prop :=
  forall g : string, ~ In g names -> files w' !! g = files w !! g.

(** A service that raises on every nucleotide fetch. *)
Definition fetch_error_env : Externals :=
  {| py_int := decimal_int;
     py_repr := quoted;
     taxonomy_efetch := taxonomy_efetch (example_env false);
     nucleotide_esearch := nucleotide_esearch (example_env false);
     nucleotide_efetch := fun _ _ => inl (Exc "HTTPError" "HTTP Error 500");
     SeqIO_parse := SeqIO_parse (example_env false);
     open_write := open_write (example_env false);
     plt_raises := plt_raises (example_env false) |}.

(** A directory in which no file can be opened for writing. *)
Definition read_only_env : Externals :=
  {| py_int := decimal_int;
     py_repr := quoted;
     taxonomy_efetch := taxonomy_efetch (example_env false);
     nucleotide_esearch := nucleotide_esearch (example_env false);
     nucleotide_efetch := nucleotide_efetch (example_env false);
     SeqIO_parse := SeqIO_parse (example_env false);
     open_write := fun _ => Some (Exc "PermissionError" "Permission denied");
     plt_raises := plt_raises (example_env false) |}.

(** A parser that yields one record and then fails. *)
Definition broken_parser_env : Externals :=
  {| py_int := decimal_int;
     py_repr := quoted;
     taxonomy_efetch := taxonomy_efetch (example_env false);
     nucleotide_esearch := nucleotide_esearch (example_env false);
     nucleotide_efetch := nucleotide_efetch (example_env false);
     SeqIO_parse := fun _ =>
       (firstn 2 example_records,
        Some (Exc "ValueError" "Premature end of line during sequence data"));
     open_write := open_write (example_env false);
     plt_raises := plt_raises (example_env false) |}.

(** A retriever with a session. *)
Definition example_retriever : NCBIRetriever :=
  {| email := "me@example.org"; api_key := "key";
     webenv := Some "MCID_1"; query_key := Some "1"; count := Some 3 |}.

(** A machine without network: the taxonomy lookup raises. *)
Definition offline_env : Externals :=
  {| py_int := decimal_int;
     py_repr := quoted;
     taxonomy_efetch := fun _ _ =>
       inl (Exc "URLError" "Name or service not known");
     nucleotide_esearch := nucleotide_esearch (example_env false);
     nucleotide_efetch := nucleotide_efetch (example_env false);
     SeqIO_parse := SeqIO_parse (example_env false);
     open_write := open_write (example_env false);
     plt_raises := plt_raises (example_env false) |}.

(** The world in which [main] calls [search_taxid]: the five prompts
    answered, the Entrez settings assigned. *)
Definition after_inputs (w : World) (email api_key : string) (rest : list string)
  : World :=
  {| stdin := rest;
     trace := trace w
              ++ [EvPrompt "Enter your email address for NCBI: ";
                  EvPrompt "Enter your NCBI API key: ";
                  EvPrompt "Enter taxonomic ID (taxid) of the organism: ";
                  EvPrompt "Enter minimum sequence length: ";
                  EvPrompt "Enter maximum sequence length: "];
     entrez := entrez_settings email api_key;
     files := files w; figures := figures w |}.

(** The line [main] prints before fetching. *)
Definition fetching_line : string :=
  String (Ascii.ascii_of_nat 10) "Fetching records from GenBank...".

(** [w'] has the trace of [w] followed by events that satisfy [P]. *)
Definition adds_events (P : event -> bool) (w w' : World) : Prop :=
  exists evs : list event, trace w' = trace w ++ evs /\ forallb P evs = true.

(** What a run of the two writers may do: events that are no request,
    and files changed under the given names only. *)
Definition reports_to (names : list string) (w w' : World) : Prop :=
  adds_events (fun e => negb (is_network e)) w w' /\ files_except names w w'.

(** * Properties *)

(** ** The length filter *)

Section Filter.

Context (E : Externals).
Variables min_len max_len : Z.

(** The loop only ever appends to the list it has built so far. *)
Lemma fold_filter_step (records : list SeqRecord) (acc : list Summary) :
  fold_left (filter_step min_len max_len) records acc
  = acc ++ map summarize (List.filter (in_range min_len max_len) records).
Proof.
  revert acc.
  induction records as [|record records IH]; intros acc; simpl.
  - now rewrite app_nil_r.
  - rewrite IH. unfold filter_step, in_range.
    destruct ((min_len <=? _) && (_ <=? max_len)); simpl.
    + now rewrite <- app_assoc.
    + reflexivity.
Qed.

Lemma filter_and_parse_sequences_text (s : string) :
  filter_and_parse_sequences E (PyStr s) min_len max_len
  = match snd (SeqIO_parse E s) with
    | Some e => Raise e
    | None =>
        Ret (map summarize
               (List.filter (in_range min_len max_len) (fst (SeqIO_parse E s))))
    end.
Proof.
  unfold filter_and_parse_sequences. simpl.
  destruct (SeqIO_parse E s) as [records err]. simpl.
  destruct err; [reflexivity|].
  now rewrite fold_filter_step.
Qed.

Lemma filter_and_parse_sequences_inv (gb_text : py_value) (data : list Summary) :
  filter_and_parse_sequences E gb_text min_len max_len = Ret data ->
  exists records : list SeqRecord,
    data = map summarize (List.filter (in_range min_len max_len) records).
Proof.
  unfold filter_and_parse_sequences.
  destruct (StringIO gb_text) as [handle|]; [|discriminate].
  destruct (SeqIO_parse E handle) as [records err].
  destruct err; [discriminate|].
  intros [= <-]. exists records. now rewrite fold_filter_step.
Qed.

(** C1. Every record of the list that [filter_and_parse_sequences]
    returns has its length between [min_len] and [max_len], both
    included, whatever the input and the two integer bounds are. *)
Theorem filter_within_bounds (gb_text : py_value) (data : list Summary) :
  filter_and_parse_sequences E gb_text min_len max_len = Ret data ->
  Forall (fun r => min_len <= length_ r <= max_len) data.
Proof.
  intros H. apply filter_and_parse_sequences_inv in H as [records ->].
  apply List.Forall_forall. intros r Hin.
  apply in_map_iff in Hin as [record [<- Hin]].
  apply filter_In in Hin as [_ Hrange].
  unfold in_range in Hrange. apply andb_prop in Hrange as [Hlo Hhi].
  simpl. lia.
Qed.

(** C10, amended. With [min_len > max_len] no record can pass the test:
    on every text that the parser reads to its end, the function returns
    the empty list, and raises nothing. *)
Theorem filter_inverted_bounds_empty (s : string) :
  snd (SeqIO_parse E s) = None ->
  min_len > max_len ->
  filter_and_parse_sequences E (PyStr s) min_len max_len = Ret [].
Proof.
  intros Hparse Hinv.
  rewrite filter_and_parse_sequences_text, Hparse. f_equal.
  induction (fst (SeqIO_parse E s)) as [|record records IH]; [reflexivity|].
  simpl. unfold in_range at 1.
  destruct (Z.leb_spec min_len (Z.of_nat (String.length (seq record))));
    destruct (Z.leb_spec (Z.of_nat (String.length (seq record))) max_len);
    simpl; try exact IH.
  lia.
Qed.

End Filter.

(** ** The order of the chart *)

Section Sorting.

Context {A : Type} (key : A -> Z).

Lemma insert_desc_perm (x : A) (l : list A) :
  Permutation (x :: l) (insert_desc key x l).
Proof.
  induction l as [|y l IH]; simpl; [reflexivity|].
  destruct (key x <? key y); [|reflexivity].
  rewrite perm_swap. now apply perm_skip.
Qed.

Lemma insert_desc_Forall (P : A -> Prop) (x : A) (l : list A) :
  P x -> List.Forall P l -> List.Forall P (insert_desc key x l).
Proof.
  intros Hx Hl. induction Hl as [|y l Hy Hl IH]; simpl.
  - now repeat constructor.
  - destruct (key x <? key y); repeat constructor; assumption.
Qed.

Lemma insert_desc_sorted (x : A) (l : list A) :
  StronglySorted (key_ge key) l -> StronglySorted (key_ge key) (insert_desc key x l).
Proof.
  induction 1 as [|y l Hl IH Hy]; simpl.
  - repeat constructor.
  - destruct (Z.ltb_spec (key x) (key y)) as [Hlt|Hge].
    + constructor; [exact IH|].
      apply insert_desc_Forall; [unfold key_ge; lia | exact Hy].
    + constructor; [now constructor|].
      constructor; [unfold key_ge; lia|].
      eapply List.Forall_impl; [|exact Hy].
      unfold key_ge. intros z Hz. lia.
Qed.

(** Insertion moves [x] past larger keys only, so among the elements of
    any one key it stays in front. *)
Lemma insert_desc_filter (k : Z) (x : A) (l : list A) :
  List.filter (has_key key k) (insert_desc key x l)
  = List.filter (has_key key k) (x :: l).
Proof.
  induction l as [|y l IH]; [reflexivity|].
  simpl insert_desc.
  destruct (Z.ltb_spec (key x) (key y)) as [Hlt|Hge]; [|reflexivity].
  change (List.filter (has_key key k) (y :: insert_desc key x l))
    with (if has_key key k y then y :: List.filter (has_key key k) (insert_desc key x l)
          else List.filter (has_key key k) (insert_desc key x l)).
  rewrite IH. simpl. unfold has_key.
  destruct (Z.eqb_spec (key y) k), (Z.eqb_spec (key x) k); try reflexivity.
  lia.
Qed.

Lemma sorted_reverse_perm (l : list A) : Permutation l (sorted_reverse key l).
Proof.
  induction l as [|x l IH]; simpl; [reflexivity|].
  rewrite <- insert_desc_perm. now apply perm_skip.
Qed.

Lemma sorted_reverse_sorted (l : list A) :
  StronglySorted (key_ge key) (sorted_reverse key l).
Proof.
  induction l as [|x l IH]; simpl; [constructor|].
  now apply insert_desc_sorted.
Qed.

Lemma sorted_reverse_stable (k : Z) (l : list A) :
  List.filter (has_key key k) (sorted_reverse key l) = List.filter (has_key key k) l.
Proof.
  induction l as [|x l IH]; [reflexivity|].
  simpl sorted_reverse. rewrite insert_desc_filter. simpl. now rewrite IH.
Qed.

End Sorting.

(** [data_sorted] gives a permutation of its input, in descending order
    of length, and the records of any one length appear in it in the
    order they have in the input. *)
Lemma data_sorted_stable_descending (data : list Summary) :
  Permutation data (data_sorted data)
  /\ StronglySorted (fun a b => length_ a >= length_ b) (data_sorted data)
  /\ forall k : Z,
       List.filter (fun r => length_ r =? k) (data_sorted data)
       = List.filter (fun r => length_ r =? k) data.
Proof.
  split; [apply sorted_reverse_perm|].
  split; [apply (sorted_reverse_sorted length_)|].
  intros k. apply (sorted_reverse_stable length_).
Qed.

(** ** Worlds and traces *)

Lemma World_eq (w1 w2 : World) :
  stdin w1 = stdin w2 ->
  trace w1 = trace w2 ->
  entrez w1 = entrez w2 ->
  files w1 = files w2 ->
  figures w1 = figures w2 ->
  w1 = w2.
Proof. destruct w1, w2. simpl. now intros -> -> -> -> ->. Qed.

Lemma add_events_app (w : World) (evs1 evs2 : list event) :
  add_events (add_events w evs1) evs2 = add_events w (evs1 ++ evs2).
Proof. unfold add_events. simpl. now rewrite app_assoc. Qed.

Lemma emit_add_events (e : event) (w : World) :
  emit e w = (Ret tt, add_events w [e]).
Proof. reflexivity. Qed.

Lemma efetch_requests_app (evs1 evs2 : list event) :
  efetch_requests (evs1 ++ evs2) = efetch_requests evs1 ++ efetch_requests evs2.
Proof.
  induction evs1 as [|e evs1 IH]; [reflexivity|].
  destruct e; simpl; now rewrite IH.
Qed.

(** ** Fetching *)

Section Fetch.

Context (E : Externals).

Lemma fetch_records_no_session (self : NCBIRetriever) (w : World)
    (start max_records : Z) :
  webenv self = None \/ query_key self = None ->
  fetch_records E start max_records (self, w)
  = (Ret (PyList []), (self, add_events w [EvPrint no_session_message])).
Proof.
  unfold fetch_records, bind, get_self. simpl.
  intros [H|H]; rewrite H; simpl; [reflexivity|].
  destruct (webenv self); reflexivity.
Qed.

Lemma fetch_records_session (self : NCBIRetriever) (w : World)
    (start max_records : Z) (we qk : string) :
  webenv self = Some we ->
  query_key self = Some qk ->
  let req := fetch_request start max_records we qk in
  let sent := EvNucleotideEfetch (entrez w) req in
  fetch_records E start max_records (self, w)
  = match nucleotide_efetch E (entrez w) req with
    | inr records_text => (Ret (PyStr records_text), (self, add_events w [sent]))
    | inl (Exc cls msg) =>
        (Ret (PyStr ""),
         (self, add_events w [sent; EvPrint ("Error fetching records: " +:+ msg)]))
    | inl (BaseExc cls) => (Raise (BaseExc cls), (self, add_events w [sent]))
    end.
Proof.
  intros Hwe Hqk req sent.
  destruct self as [em ak we' qk' c]. simpl in Hwe, Hqk. subst we' qk'.
  cbv [fetch_records bind get_self try_except lift get_entrez getattr hasattr
       emit print of_sum ret raise]. simpl.
  subst req sent. unfold fetch_request.
  destruct (nucleotide_efetch E (entrez w) _) as [[cls msg|cls]|records_text];
    simpl; try reflexivity.
  unfold add_events. simpl. now rewrite <- app_assoc.
Qed.

End Fetch.

(** The requests that one call of [fetch_records] sends: one when the
    session exists, none otherwise. *)
Lemma fetch_records_requests (E : Externals) (self : NCBIRetriever) (w : World)
    (start max_records : Z) :
  exists req : EfetchRequest,
    retmax req = Z.min max_records 500
    /\ retstart req = start
    /\ efetch_requests (trace (snd (snd (fetch_records E start max_records (self, w)))))
       = efetch_requests (trace w)
         ++ (if hasattr (webenv self) && hasattr (query_key self)
             then [req] else []).
Proof.
  destruct (webenv self) as [we|] eqn:Hwe.
  - destruct (query_key self) as [qk|] eqn:Hqk.
    + exists (fetch_request start max_records we qk).
      split; [reflexivity|]. split; [reflexivity|].
      rewrite (fetch_records_session E self w start max_records we qk Hwe Hqk).
      destruct (nucleotide_efetch E (entrez w) _) as [[cls msg|cls]|text];
        simpl; now rewrite efetch_requests_app.
    + exists (fetch_request start max_records "" "").
      split; [reflexivity|]. split; [reflexivity|].
      rewrite fetch_records_no_session by (now right).
      simpl. now rewrite efetch_requests_app.
  - exists (fetch_request start max_records "" "").
    split; [reflexivity|]. split; [reflexivity|].
    rewrite fetch_records_no_session by (now left).
    simpl. now rewrite efetch_requests_app.
Qed.

(** C3. Whatever [fetch_records] sends to the service asks for
    [min(max_records, 500)] records; asked for 9999, it asks the service
    for 500. *)
Theorem fetch_records_batch_size :
  (forall (E : Externals) (self : NCBIRetriever) (w : World) (start max_records : Z),
      exists req : EfetchRequest,
        retmax req = Z.min max_records 500
        /\ efetch_requests
             (trace (snd (snd (fetch_records E start max_records (self, w)))))
           = efetch_requests (trace w)
             ++ (if hasattr (webenv self) && hasattr (query_key self)
                 then [req] else []))
  /\ (forall (E : Externals) (self : NCBIRetriever) (w : World) (start : Z),
         exists req : EfetchRequest,
           retmax req = 500
           /\ efetch_requests
                (trace (snd (snd (fetch_records E start 9999 (self, w)))))
              = efetch_requests (trace w)
                ++ (if hasattr (webenv self) && hasattr (query_key self)
                    then [req] else [])).
Proof.
  split.
  - intros E self w start max_records.
    destruct (fetch_records_requests E self w start max_records)
      as [req [Hmax [_ Hsent]]].
    now exists req.
  - intros E self w start.
    destruct (fetch_records_requests E self w start 9999)
      as [req [Hmax [_ Hsent]]].
    now exists req.
Qed.

(** C6. Without a session, that is when [webenv] or [query_key] was never
    assigned, [fetch_records] returns the empty list at once: it raises
    nothing, leaves the instance as it is, and all it does is print one
    line, which is no network call. *)
Theorem fetch_records_without_session (E : Externals) (self : NCBIRetriever)
    (w : World) (start max_records : Z) :
  webenv self = None \/ query_key self = None ->
  fetch_records E start max_records (self, w)
  = (Ret (PyList []),
     (self,
      add_events w
        [EvPrint "No search results to fetch. Run search_taxid() first."]))
  /\ forallb (fun e => negb (is_network e))
       [EvPrint "No search results to fetch. Run search_taxid() first."]
     = true.
Proof.
  intros H. split; [|reflexivity].
  now apply fetch_records_no_session.
Qed.

(** C9. What [fetch_records] returns: the empty list when there is no
    session; with a session, the text of the service when the fetch
    succeeds and the empty string when it raises an [Exception]; and the
    empty list is not the empty string. *)
Theorem fetch_records_result (E : Externals) (self : NCBIRetriever) (w : World)
    (start max_records : Z) :
  fst (fetch_records E start max_records (self, w))
  = match webenv self, query_key self with
    | Some we, Some qk =>
        match nucleotide_efetch E (entrez w)
                (fetch_request start max_records we qk) with
        | inr records_text => Ret (PyStr records_text)
        | inl (Exc _ _) => Ret (PyStr "")
        | inl (BaseExc cls) => Raise (BaseExc cls)
        end
    | _, _ => Ret (PyList [])
    end
  /\ PyList [] <> PyStr "".
Proof.
  split; [|discriminate].
  destruct (webenv self) as [we|] eqn:Hwe.
  - destruct (query_key self) as [qk|] eqn:Hqk.
    + rewrite (fetch_records_session E self w start max_records we qk Hwe Hqk).
      now destruct (nucleotide_efetch E (entrez w) _) as [[cls msg|cls]|text].
    + now rewrite fetch_records_no_session by (now right).
  - now rewrite fetch_records_no_session by (now left).
Qed.

(** ** The table *)

Lemma dict_to_list_row (r : Summary) : dict_to_list r = data_row r.
Proof. reflexivity. Qed.

Section Table.

Context (E : Externals).

Lemma csv_writerow_spec (filename : string) (row : list py_value) (w : World) :
  csv_writerow filename row w
  = (Ret tt,
     with_files (add_events w [EvWriteRow filename row])
       (<[filename := CsvFile (rows_of (files w !! filename) ++ [row])]> (files w))).
Proof. reflexivity. Qed.

(** The loop of [save_csv], started on a file that holds [rows]. *)
Lemma save_csv_loop (filename : string) (data : list Summary)
    (rows : list (list py_value)) (w : World) :
  files w !! filename = Some (CsvFile rows) ->
  for_each data (fun row => csv_writerow filename (dict_to_list row)) w
  = (Ret tt,
     with_files (add_events w (map (fun r => EvWriteRow filename (data_row r)) data))
       (<[filename := CsvFile (rows ++ map data_row data)]> (files w))).
Proof.
  revert rows w.
  induction data as [|r data IH]; intros rows w Hfile.
  - simpl. unfold ret, with_files, add_events. simpl.
    rewrite !app_nil_r, insert_id by exact Hfile.
    now destruct w.
  - simpl for_each. unfold bind at 1. rewrite csv_writerow_spec.
    rewrite (IH (rows ++ [data_row r])).
    + unfold with_files, add_events. simpl.
      rewrite Hfile. simpl. rewrite insert_insert_eq.
      now rewrite <- !app_assoc.
    + simpl. rewrite Hfile. simpl. now rewrite lookup_insert_eq.
Qed.

Lemma save_csv_ok (data : list Summary) (filename : string) (w : World) :
  open_write E filename = None ->
  save_csv E data filename w
  = (Ret tt,
     with_files
       (add_events w
          (EvOpenWrite filename
           :: EvWriteRow filename header_row
           :: map (fun r => EvWriteRow filename (data_row r)) data
           ++ [EvCloseFile filename; EvPrint ("CSV saved to " +:+ filename)]))
       (<[filename := CsvFile (header_row :: map data_row data)]> (files w))).
Proof.
  intros Hopen.
  unfold save_csv, open_w, bind at 1 2. rewrite Hopen. simpl.
  unfold bind at 1, finally, bind at 1. rewrite csv_writerow_spec.
  rewrite (save_csv_loop filename data [header_row]).
  - simpl. unfold with_files, add_events. simpl.
    rewrite lookup_insert_eq. simpl. rewrite !insert_insert_eq.
    rewrite <- !app_assoc. simpl.
    unfold print, emit. simpl. rewrite <- !app_assoc. simpl.
    now rewrite <- !app_assoc.
  - simpl. now rewrite !lookup_insert_eq.
Qed.

Lemma save_csv_fail (data : list Summary) (filename : string) (w : World)
    (e : exn) :
  open_write E filename = Some e ->
  save_csv E data filename w = (Raise e, add_events w [EvOpenWrite filename]).
Proof.
  intros Hopen. unfold save_csv, open_w, bind at 1 2. now rewrite Hopen.
Qed.

End Table.

(** C4. When the file opens, [save_csv] returns with the file holding
    the header row accession, length, description and then one row per
    record of the input, carrying that record's accession, length and
    description, in the order of the input. *)
Theorem save_csv_rows (E : Externals) (data : list Summary) (filename : string)
    (w : World) :
  open_write E filename = None ->
  exists w' : World,
    save_csv E data filename w = (Ret tt, w')
    /\ files w'
       = <[filename :=
             CsvFile
               ([PyStr "accession"; PyStr "length"; PyStr "description"]
                :: map (fun r => [PyStr (accession r); PyInt (length_ r);
                                  PyStr (description_ r)]) data)]> (files w).
Proof.
  intros Hopen. eexists. split; [now apply save_csv_ok|]. reflexivity.
Qed.

(** ** The chart *)

Section Chart.

Context (E : Externals).

Lemma plt_ok (op : plt_op) (w : World) :
  plt_raises E op = None ->
  plt E op w = (Ret tt, plt_effect op (add_events w [EvPlt op])).
Proof. intros H. unfold plt, bind. simpl. now rewrite H. Qed.

Lemma plt_fail (op : plt_op) (w : World) (e : exn) :
  plt_raises E op = Some e ->
  plt E op w = (Raise e, add_events w [EvPlt op]).
Proof. intros H. unfold plt, bind. simpl. now rewrite H. Qed.

(** The calls before [plt.savefig], when none of them raises. *)
Lemma plot_data_setup (data : list Summary) (filename : string) (w : World) :
  List.Forall (fun op => plt_raises E op = None) (chart_setup data) ->
  plot_data E data filename w
  = (plt E (PltSavefig filename) ;;;
     print ("Chart saved to " +:+ filename) ;;;
     plt E PltClose)
      (with_figures (add_events w (map EvPlt (chart_setup data)))
         (chart_figure data :: figures w)).
Proof.
  intros Hsetup. pose proof Hsetup as Hall. unfold chart_setup in Hall.
  repeat match type of Hall with
         | List.Forall _ (_ :: _) =>
             let H := fresh "H" in
             apply List.Forall_cons_iff in Hall as [H Hall]
         end.
  unfold plot_data. cbv zeta.
  do 7 (unfold bind at 1; rewrite plt_ok by assumption).
  f_equal. apply World_eq; try reflexivity.
  lazy beta iota zeta delta [trace plt_effect add_events with_figures].
  rewrite <- !app_assoc. reflexivity.
Qed.

Lemma plot_data_ok (data : list Summary) (filename : string) (w : World) :
  List.Forall (fun op => plt_raises E op = None) (chart_setup data) ->
  plt_raises E (PltSavefig filename) = None ->
  plt_raises E PltClose = None ->
  plot_data E data filename w
  = (Ret tt,
     with_files
       (add_events w
          (map EvPlt (chart_setup data)
           ++ [EvPlt (PltSavefig filename);
               EvPrint ("Chart saved to " +:+ filename);
               EvPlt PltClose]))
       (<[filename := PngFile (chart_figure data)]> (files w))).
Proof.
  intros Hsetup Hsave Hclose.
  rewrite plot_data_setup by assumption.
  unfold bind at 1. rewrite plt_ok by assumption.
  unfold bind at 1, print. rewrite emit_add_events.
  rewrite plt_ok by assumption.
  unfold with_files, with_figures, add_events, plt_effect. simpl.
  rewrite <- !app_assoc. reflexivity.
Qed.

Lemma plot_data_savefig_fail (data : list Summary) (filename : string)
    (w : World) (e : exn) :
  List.Forall (fun op => plt_raises E op = None) (chart_setup data) ->
  plt_raises E (PltSavefig filename) = Some e ->
  plot_data E data filename w
  = (Raise e,
     with_figures
       (add_events w (map EvPlt (chart_setup data) ++ [EvPlt (PltSavefig filename)]))
       (chart_figure data :: figures w)).
Proof.
  intros Hsetup Hsave.
  rewrite plot_data_setup by assumption.
  unfold bind at 1. rewrite (plt_fail _ _ e) by assumption.
  unfold with_figures, add_events. simpl.
  rewrite <- !app_assoc. reflexivity.
Qed.

End Chart.

(** ** A concrete world for the examples *)

Example decimal_int_500 : decimal_int "500" = Some 500.
Proof. reflexivity. Qed.

Example decimal_int_abc : decimal_int "abc" = None.
Proof. reflexivity. Qed.

(** The scenario of the specification: of lengths 300, 750 and 1200, the
    bounds 500 and 1000 keep the record of length 750 only. *)
Example filter_scenario :
  filter_and_parse_sequences (example_env false) (PyStr "LOCUS") 500 1000
  = Ret [ {| accession := "AB000750.1"; length_ := 750;
             description_ := "middle record" |} ].
Proof. vm_compute. reflexivity. Qed.

Example data_sorted_example :
  map accession (data_sorted example_data) = ["AB001200.1"; "AB000750.1"].
Proof. reflexivity. Qed.

Lemma filter_within_bounds_witness :
  filter_and_parse_sequences (example_env false) (PyStr "LOCUS") 500 1000
  = Ret [ {| accession := "AB000750.1"; length_ := 750;
             description_ := "middle record" |} ]
  /\ List.Forall (fun r => 500 <= length_ r <= 1000)
       [ {| accession := "AB000750.1"; length_ := 750;
            description_ := "middle record" |} ].
Proof.
  split; [vm_compute; reflexivity|].
  apply (filter_within_bounds (example_env false) 500 1000 (PyStr "LOCUS")).
  vm_compute. reflexivity.
Defined.

Lemma filter_inverted_bounds_empty_witness :
  snd (SeqIO_parse (example_env false) "LOCUS") = None
  /\ 1000 > 500
  /\ filter_and_parse_sequences (example_env false) (PyStr "LOCUS") 1000 500 = Ret [].
Proof.
  split; [reflexivity|]. split; [lia|].
  apply (filter_inverted_bounds_empty (example_env false) 1000 500 "LOCUS");
    [reflexivity | lia].
Defined.

Lemma fetch_records_without_session_witness :
  let self := {| email := "a@b.c"; api_key := "k"; webenv := None;
                 query_key := None; count := None |} in
  (webenv self = None \/ query_key self = None)
  /\ fetch_records (example_env false) 0 100 (self, empty_world [])
     = (Ret (PyList []),
        (self,
         add_events (empty_world [])
           [EvPrint "No search results to fetch. Run search_taxid() first."])).
Proof.
  intros self. split; [now left|].
  apply (fetch_records_without_session (example_env false) self
           (empty_world []) 0 100).
  now left.
Defined.

Lemma save_csv_rows_witness :
  open_write (example_env false) "taxid_9606_filtered.csv" = None
  /\ exists w' : World,
       save_csv (example_env false) example_data "taxid_9606_filtered.csv"
         (empty_world [])
       = (Ret tt, w')
       /\ files w'
          = <["taxid_9606_filtered.csv" :=
                CsvFile
                  [ [PyStr "accession"; PyStr "length"; PyStr "description"];
                    [PyStr "AB000750.1"; PyInt 750; PyStr "middle record"];
                    [PyStr "AB001200.1"; PyInt 1200; PyStr "long record"] ]]> ∅.
Proof.
  split; [reflexivity|].
  apply (save_csv_rows (example_env false) example_data
           "taxid_9606_filtered.csv" (empty_world [])).
  reflexivity.
Defined.

(** C7, as stated, fails: when [plt.savefig] raises, the exception leaves
    [plot_data] before [plt.close()] is reached, and the figure stays
    open. *)
Lemma plot_data_savefig_failure_leaves_figure_open :
  let r := plot_data (example_env true) example_data "taxid_9606_chart.png"
             (empty_world []) in
  fst r = Raise (Exc "PermissionError" "Permission denied")
  /\ figures (snd r) = [chart_figure example_data]
  /\ ~ In (EvPlt PltClose) (trace (snd r)).
Proof.
  vm_compute. split; [reflexivity|]. split; [reflexivity|].
  intros H.
  repeat (destruct H as [H|H]; [discriminate H|]).
  exact H.
Qed.

(** C7, amended. When the pyplot calls that build the chart and
    [plt.close()] do not raise: if [plt.savefig] returns, [plot_data]
    returns with [plt.close()] as its last action and the figures as they
    were before the call; if [plt.savefig] raises, the exception reaches
    the caller, [plt.close()] is not called and the figure stays open. *)
Theorem plot_data_closes_unless_savefig_fails (E : Externals)
    (data : list Summary) (filename : string) (w : World) :
  List.Forall (fun op => plt_raises E op = None) (chart_setup data) ->
  plt_raises E PltClose = None ->
  exists (w' : World) (evs : list event),
    trace w' = trace w ++ evs
    /\ match plt_raises E (PltSavefig filename) with
       | None =>
           plot_data E data filename w = (Ret tt, w')
           /\ figures w' = figures w
           /\ last evs = Some (EvPlt PltClose)
       | Some e =>
           plot_data E data filename w = (Raise e, w')
           /\ figures w' = chart_figure data :: figures w
           /\ ~ In (EvPlt PltClose) evs
       end.
Proof.
  intros Hsetup Hclose.
  destruct (plt_raises E (PltSavefig filename)) as [e|] eqn:Hsave.
  - eexists _, _. split; [|split; [now apply plot_data_savefig_fail|]].
    + reflexivity.
    + split; [reflexivity|].
      simpl. intros H.
      repeat (destruct H as [H|H]; [discriminate H|]).
      exact H.
  - eexists _, _. split; [|split; [now apply plot_data_ok|]].
    + reflexivity.
    + split; reflexivity.
Qed.

Lemma plot_data_closes_unless_savefig_fails_witness :
  List.Forall (fun op => plt_raises (example_env false) op = None)
    (chart_setup example_data)
  /\ plt_raises (example_env false) PltClose = None
  /\ exists (w' : World) (evs : list event),
       trace w' = evs
       /\ plot_data (example_env false) example_data "taxid_9606_chart.png"
            (empty_world [])
          = (Ret tt, w')
       /\ figures w' = []
       /\ last evs = Some (EvPlt PltClose).
Proof.
  assert (Hsetup : List.Forall (fun op => plt_raises (example_env false) op = None)
                     (chart_setup example_data))
    by (repeat constructor).
  split; [exact Hsetup|]. split; [reflexivity|].
  destruct (plot_data_closes_unless_savefig_fails (example_env false)
              example_data "taxid_9606_chart.png" (empty_world [])
              Hsetup eq_refl) as [w' [evs [Htrace H]]].
  exists w', evs. split; [exact Htrace|]. exact H.
Defined.

(** ** The orchestrator *)

Lemma writes_no_file_refl (w : World) : writes_no_file w w.
Proof.
  split; [reflexivity|]. split; [reflexivity|].
  exists []. now rewrite app_nil_r.
Qed.

Lemma writes_no_file_trans (w1 w2 w3 : World) :
  writes_no_file w1 w2 -> writes_no_file w2 w3 -> writes_no_file w1 w3.
Proof.
  intros [Hf1 [Hg1 [evs1 [Ht1 Hq1]]]] [Hf2 [Hg2 [evs2 [Ht2 Hq2]]]].
  split; [congruence|]. split; [congruence|].
  exists (evs1 ++ evs2). split.
  - now rewrite Ht2, Ht1, app_assoc.
  - now rewrite forallb_app, Hq1, Hq2.
Qed.

Lemma writes_no_file_add_events (w : World) (evs : list event) :
  forallb (fun e => negb (is_file_write e)) evs = true ->
  writes_no_file w (add_events w evs).
Proof.
  intros H. split; [reflexivity|]. split; [reflexivity|]. now exists evs.
Qed.

Lemma bind_run {S A B} (m : M S A) (k : A -> M S B) (s : S) :
  bind m k s
  = match m s with
    | (Ret a, s') => k a s'
    | (Raise e, s') => (Raise e, s')
    end.
Proof. reflexivity. Qed.

Lemma bind_writes_no_file {A B} (m : M World A) (k : A -> M World B) (w : World) :
  writes_no_file w (snd (m w)) ->
  (forall (a : A) (w1 : World), writes_no_file w1 (snd (k a w1))) ->
  writes_no_file w (snd (bind m k w)).
Proof.
  intros Hm Hk. rewrite bind_run.
  destruct (m w) as [[a|e] w1]; simpl in *; [|exact Hm].
  eapply writes_no_file_trans; [exact Hm | apply Hk].
Qed.

Lemma input_writes_no_file (prompt : string) (w : World) :
  writes_no_file w (snd (input prompt w)).
Proof.
  unfold input.
  destruct (stdin w); simpl;
    (split; [reflexivity|]; split; [reflexivity|];
     now exists [EvPrompt prompt]).
Qed.

Lemma print_writes_no_file (line : string) (w : World) :
  writes_no_file w (snd (print line w)).
Proof. now apply writes_no_file_add_events. Qed.

Lemma call_writes_no_file {A} (self : NCBIRetriever)
    (m : M (NCBIRetriever * World) A) (w : World) :
  (exists evs : list event,
      snd (snd (m (self, w))) = add_events w evs
      /\ forallb (fun e => negb (is_file_write e)) evs = true) ->
  writes_no_file w (snd (call self m w)).
Proof.
  intros [evs [Hw Hq]]. unfold call.
  destruct (m (self, w)) as [[a|e] [self' w']]; simpl in *; subst w';
    now apply writes_no_file_add_events.
Qed.

Lemma append_inj_l (p a b : string) : p +:+ a = p +:+ b -> a = b.
Proof.
  induction p as [|c p IH]; simpl; [tauto|].
  intros [= H]. now apply IH.
Qed.

Lemma csv_file_ne_chart_file (taxid : string) :
  "taxid_" +:+ taxid +:+ "_chart.png" <> "taxid_" +:+ taxid +:+ "_filtered.csv".
Proof.
  intros H. apply append_inj_l in H. apply append_inj_l in H. discriminate H.
Qed.

Section Orchestrator.

Context (E : Externals).

Ltac search_cases :=
  repeat (simpl;
    match goal with
    | |- context [taxonomy_efetch E ?a ?b] =>
        destruct (taxonomy_efetch E a b) as [[? ?|?]|[|? ?]]
    | |- context [nucleotide_esearch E ?a ?b] =>
        destruct (nucleotide_esearch E a b) as [[? ?|?]|?]
    | |- context [@lookup _ _ _ _ ?k ?m] => destruct (m !! k)
    | |- context [py_int E ?s] => destruct (py_int E s)
    | |- context [Z.eqb ?n 0] => destruct (Z.eqb n 0)
    end).

(** [search_taxid] talks to the service and prints; it sends no
    nucleotide fetch and writes no file. *)
Lemma search_taxid_events (taxid : string) (self : NCBIRetriever) (w : World) :
  exists evs : list event,
    snd (snd (search_taxid E taxid (self, w))) = add_events w evs
    /\ forallb (fun e => negb (is_file_write e)) evs = true.
Proof.
  unfold search_taxid, search_taxid_body.
  cbv [bind try_except lift get_entrez emit print of_sum ret raise index0 getitem
       int_ get_self set_self].
  search_cases.
  all: eexists; split;
    [unfold add_events; simpl; rewrite <- ?app_assoc; simpl; reflexivity
    | reflexivity].
Qed.

Lemma fetch_records_events (start max_records : Z) (self : NCBIRetriever)
    (w : World) :
  exists evs : list event,
    snd (snd (fetch_records E start max_records (self, w))) = add_events w evs
    /\ forallb (fun e => negb (is_file_write e)) evs = true.
Proof.
  destruct (webenv self) as [we|] eqn:Hwe.
  - destruct (query_key self) as [qk|] eqn:Hqk.
    + rewrite (fetch_records_session E self w start max_records we qk Hwe Hqk).
      destruct (nucleotide_efetch E (entrez w) _) as [[cls msg|cls]|text];
        simpl; eexists; split; reflexivity.
    + rewrite fetch_records_no_session by (now right).
      simpl. eexists; split; reflexivity.
  - rewrite fetch_records_no_session by (now left).
    simpl. eexists; split; reflexivity.
Qed.

Ltac run_step :=
  rewrite ?bind_run;
  match goal with
  | |- match ?x with _ => _ end = _ =>
      destruct x as [[?|?] ?]; try reflexivity
  | |- (let '(_, _) := ?r in _) _ = _ => destruct r
  | |- (if negb (truthy ?c) then _ else _) _ = _ =>
      destruct (negb (truthy c)); try reflexivity
  end.

(** [main] is [main_filtered] followed by [main_report]. *)
Lemma main_decompose (w : World) :
  main E w
  = match main_filtered E w with
    | (Ret (taxid, _, filtered), w1) => main_report E taxid filtered w1
    | (Raise e, w1) => (Raise e, w1)
    end.
Proof.
  unfold main, main_filtered.
  repeat run_step.
  match goal with a : list Summary |- _ => destruct a end; reflexivity.
Qed.

Lemma main_filtered_writes_no_file (w : World) :
  writes_no_file w (snd (main_filtered E w)).
Proof.
  unfold main_filtered.
  do 4 (apply bind_writes_no_file; [apply input_writes_no_file | intros ? ?]).
  apply bind_writes_no_file.
  { unfold int_. destruct (py_int E _); apply writes_no_file_refl. }
  intros ? ?.
  apply bind_writes_no_file; [apply input_writes_no_file | intros ? ?].
  apply bind_writes_no_file.
  { unfold int_. destruct (py_int E _); apply writes_no_file_refl. }
  intros ? ?.
  apply bind_writes_no_file.
  { split; [reflexivity|]. split; [reflexivity|].
    exists []. simpl. now rewrite app_nil_r. }
  intros ? ?.
  apply bind_writes_no_file.
  { apply call_writes_no_file, search_taxid_events. }
  intros [count retriever] ?.
  destruct (negb (truthy count)); [apply writes_no_file_refl|].
  apply bind_writes_no_file; [apply print_writes_no_file | intros ? ?].
  apply bind_writes_no_file.
  { apply call_writes_no_file, fetch_records_events. }
  intros [text retriever'] ?.
  apply bind_writes_no_file; [apply print_writes_no_file | intros ? ?].
  apply bind_writes_no_file; [apply writes_no_file_refl | intros ? ?].
  apply writes_no_file_refl.
Qed.

(** [main_filtered] yields no filtered list exactly when the count that
    [search_taxid] returned is falsy. *)
Lemma main_filtered_count (w w1 : World) (taxid : string) (count : py_value)
    (filtered : option (list Summary)) :
  main_filtered E w = (Ret (taxid, count, filtered), w1) ->
  filtered = None <-> truthy count = false.
Proof.
  unfold main_filtered.
  repeat (rewrite ?bind_run;
          match goal with
          | |- match ?x with _ => _ end = _ -> _ =>
              destruct x as [[?|?] ?]; try discriminate
          | |- (let '(_, _) := ?r in _) _ = _ -> _ => destruct r
          | |- (if negb (truthy ?c) then _ else _) _ = _ -> _ =>
              destruct (truthy c) eqn:?; cbn [negb]
          end).
  all: unfold ret; intros [= ? ? ? ?]; subst; split; congruence.
Qed.

End Orchestrator.

(** A run that ends in an exception before the filter is done has
    written no file either. *)
Lemma main_raises_before_filter (E : Externals) (w w1 : World) (e : exn) :
  main_filtered E w = (Raise e, w1) ->
  main E w = (Raise e, w1) /\ writes_no_file w w1.
Proof.
  intros Hrun. split.
  - now rewrite main_decompose, Hrun.
  - pose proof (main_filtered_writes_no_file E w) as Hquiet.
    now rewrite Hrun in Hquiet.
Qed.

(** The scenario of the specification: the search finds nothing, [main]
    says so and returns, and there is no file. *)
Example main_no_records :
  let r := main no_records_env
             (empty_world ["me@example.org"; "key"; "9606"; "500"; "1000"]) in
  fst r = Ret tt
  /\ last (trace (snd r)) = Some (EvPrint "No records found. Exiting.")
  /\ efetch_requests (trace (snd r)) = []
  /\ files (snd r) = ∅.
Proof. vm_compute. repeat split. Qed.

(** No record has between 5000 and 6000 bases: no file. *)
Example main_nothing_in_range :
  let r := main (example_env false)
             (empty_world ["me@example.org"; "key"; "9606"; "5000"; "6000"]) in
  fst r = Ret tt
  /\ last (trace (snd r))
     = Some (EvPrint "No sequences matched the length filter.")
  /\ map retmax (efetch_requests (trace (snd r))) = [100]
  /\ files (snd r) = ∅.
Proof. vm_compute. repeat split. Qed.

(** A full run: the table is in parse order, the chart in descending
    order of length. *)
Example main_full_run :
  let r := main (example_env false)
             (empty_world ["me@example.org"; "key"; "9606"; "500"; "2000"]) in
  fst r = Ret tt
  /\ files (snd r) !! "taxid_9606_filtered.csv"
     = Some (CsvFile
               [ [PyStr "accession"; PyStr "length"; PyStr "description"];
                 [PyStr "AB000750.1"; PyInt 750; PyStr "middle record"];
                 [PyStr "AB001200.1"; PyInt 1200; PyStr "long record"] ])
  /\ (lines <$> (files (snd r) !! "taxid_9606_chart.png"
                 ≫= fun c => match c with PngFile g => Some g | _ => None end))
     = Some [(["AB001200.1"; "AB000750.1"], [1200; 750], "o")]
  /\ figures (snd r) = [].
Proof. vm_compute. repeat split. Qed.

(** C2. In a run of [main] that gets past the search: if [search_taxid]
    returned no count ([None] or zero), or the filtered list is empty,
    [main] prints its message and returns, and the run has written no
    file; if the filtered list is not empty, then, the writers not
    raising, [main] returns with both the table and the chart written. *)
Theorem main_writes_files_iff_filtered_nonempty (E : Externals) (w w1 : World)
    (taxid : string) (count : py_value) (filtered : option (list Summary)) :
  main_filtered E w = (Ret (taxid, count, filtered), w1) ->
  let csv_file := "taxid_" +:+ taxid +:+ "_filtered.csv" in
  let chart_file := "taxid_" +:+ taxid +:+ "_chart.png" in
  (filtered = None <-> truthy count = false)
  /\ match filtered with
     | None =>
         main E w = (Ret tt, add_events w1 [EvPrint "No records found. Exiting."])
         /\ writes_no_file w (add_events w1 [EvPrint "No records found. Exiting."])
     | Some [] =>
         main E w
         = (Ret tt,
            add_events w1 [EvPrint "No sequences matched the length filter."])
         /\ writes_no_file w
              (add_events w1 [EvPrint "No sequences matched the length filter."])
     | Some (r :: data) =>
         open_write E csv_file = None ->
         List.Forall (fun op => plt_raises E op = None) (chart_setup (r :: data)) ->
         plt_raises E (PltSavefig chart_file) = None ->
         plt_raises E PltClose = None ->
         exists w' : World,
           main E w = (Ret tt, w')
           /\ files w' !! csv_file
              = Some (CsvFile (header_row :: map data_row (r :: data)))
           /\ files w' !! chart_file = Some (PngFile (chart_figure (r :: data)))
     end.
Proof.
  intros Hrun csv_file chart_file.
  split; [exact (main_filtered_count E w w1 taxid count filtered Hrun)|].
  pose proof (main_filtered_writes_no_file E w) as Hquiet.
  rewrite main_decompose, Hrun. rewrite Hrun in Hquiet. simpl in Hquiet.
  destruct filtered as [[|r data]|].
  - split; [reflexivity|].
    eapply writes_no_file_trans; [exact Hquiet|].
    now apply writes_no_file_add_events.
  - intros Hopen Hsetup Hsave Hclose.
    unfold main_report. cbv zeta. fold csv_file chart_file.
    rewrite bind_run, save_csv_ok by exact Hopen.
    rewrite bind_run, plot_data_ok by assumption.
    eexists. split; [reflexivity|].
    simpl. split.
    + rewrite lookup_insert_ne by apply csv_file_ne_chart_file.
      apply lookup_insert_eq.
    + apply lookup_insert_eq.
  - split; [reflexivity|].
    eapply writes_no_file_trans; [exact Hquiet|].
    now apply writes_no_file_add_events.
Qed.

(** C8. When the text given for the minimum or for the maximum length is
    not one [int] accepts, [main] ends with the ValueError of the
    conversion: nothing catches it, and up to there the run has made no
    network call and written no file. *)
Theorem main_non_numeric_bound (E : Externals) (w : World)
    (email api_key taxid min_str : string) (rest : list string) :
  stdin w = email :: api_key :: taxid :: min_str :: rest ->
  py_int E min_str = None
  \/ (exists (max_str : string) (rest' : list string),
         rest = max_str :: rest' /\ py_int E max_str = None) ->
  exists (msg : string) (w' : World) (evs : list event),
    main E w = (Raise (Exc "ValueError" msg), w')
    /\ trace w' = trace w ++ evs
    /\ forallb (fun e => negb (is_network e)) evs = true
    /\ files w' = files w.
Proof.
  intros Hin Hbad.
  destruct w as [lines tr cfg fl figs]. simpl in Hin. subst lines.
  unfold main. cbv [bind input int_ raise ret]. simpl.
  destruct (py_int E min_str) as [min_len|] eqn:Hmin.
  - destruct Hbad as [Hbad|[max_str [rest' [-> Hmax]]]]; [discriminate|].
    simpl. rewrite Hmax.
    eexists _, _, _. split; [reflexivity|]. simpl.
    split; [rewrite <- !app_assoc; reflexivity|]. split; reflexivity.
  - eexists _, _, _. split; [reflexivity|]. simpl.
    split; [rewrite <- !app_assoc; reflexivity|]. split; reflexivity.
Qed.

Lemma main_non_numeric_bound_witness :
  let w := empty_world ["me@example.org"; "key"; "9606"; "abc"; "1000"] in
  stdin w = ["me@example.org"; "key"; "9606"; "abc"; "1000"]
  /\ py_int (example_env false) "abc" = None
  /\ exists (msg : string) (w' : World) (evs : list event),
       main (example_env false) w = (Raise (Exc "ValueError" msg), w')
       /\ trace w' = trace w ++ evs
       /\ forallb (fun e => negb (is_network e)) evs = true
       /\ files w' = files w.
Proof.
  intros w. split; [reflexivity|]. split; [reflexivity|].
  apply (main_non_numeric_bound (example_env false) w
           "me@example.org" "key" "9606" "abc" ["1000"]);
    [reflexivity | left; reflexivity].
Defined.

Lemma main_writes_files_iff_filtered_nonempty_witness :
  let w := empty_world ["me@example.org"; "key"; "9606"; "500"; "1000"] in
  let r := {| accession := "AB000750.1"; length_ := 750;
              description_ := "middle record" |} in
  main_filtered (example_env false) w
  = (Ret ("9606", PyInt 3, Some [r]), snd (main_filtered (example_env false) w))
  /\ exists w' : World,
       main (example_env false) w = (Ret tt, w')
       /\ files w' !! "taxid_9606_filtered.csv"
          = Some (CsvFile [header_row; data_row r])
       /\ files w' !! "taxid_9606_chart.png" = Some (PngFile (chart_figure [r])).
Proof.
  intros w r.
  assert (Hrun : main_filtered (example_env false) w
                 = (Ret ("9606", PyInt 3, Some [r]),
                    snd (main_filtered (example_env false) w)))
    by (vm_compute; reflexivity).
  split; [exact Hrun|].
  destruct (main_writes_files_iff_filtered_nonempty (example_env false) w _
              "9606" (PyInt 3) (Some [r]) Hrun) as [_ Hfiles].
  apply Hfiles; try reflexivity.
  repeat constructor.
Defined.

(** * Further properties *)

(** ** The length filter, continued *)

(** X1. On a text the parser reads to its end, the result is exactly the
    parsed records whose length is within the bounds, in parse order,
    each with the record's id, the length of its sequence and its
    description: nothing in range is dropped. *)
Theorem filter_keeps_exactly_in_range (E : Externals) (min_len max_len : Z)
    (s : string) (records : list SeqRecord) :
  SeqIO_parse E s = (records, None) ->
  filter_and_parse_sequences E (PyStr s) min_len max_len
  = Ret (map (fun record =>
                {| accession := id record;
                   length_ := Z.of_nat (String.length (seq record));
                   description_ := description record |})
           (List.filter
              (fun record =>
                 (min_len <=? Z.of_nat (String.length (seq record)))
                 && (Z.of_nat (String.length (seq record)) <=? max_len))
              records)).
Proof.
  intros Hparse.
  rewrite filter_and_parse_sequences_text, Hparse. reflexivity.
Qed.

Lemma filter_keeps_exactly_in_range_witness :
  SeqIO_parse (example_env false) "LOCUS" = (example_records, None)
  /\ filter_and_parse_sequences (example_env false) (PyStr "LOCUS") 700 1200
     = Ret example_data.
Proof.
  split; [reflexivity|].
  rewrite (filter_keeps_exactly_in_range (example_env false) 700 1200 "LOCUS"
             example_records eq_refl).
  vm_compute. reflexivity.
Defined.

(** X2. When the parser raises while iterating, the exception leaves
    [filter_and_parse_sequences]: the records collected so far are not
    returned, whatever the bounds. *)
Theorem filter_propagates_parser_error (E : Externals) (min_len max_len : Z)
    (s : string) (records : list SeqRecord) (e : exn) :
  SeqIO_parse E s = (records, Some e) ->
  filter_and_parse_sequences E (PyStr s) min_len max_len = Raise e.
Proof.
  intros Hparse. rewrite filter_and_parse_sequences_text, Hparse. reflexivity.
Qed.

Lemma filter_propagates_parser_error_witness :
  SeqIO_parse broken_parser_env "LOCUS"
  = (firstn 2 example_records,
     Some (Exc "ValueError" "Premature end of line during sequence data"))
  /\ filter_and_parse_sequences broken_parser_env (PyStr "LOCUS") 0 2000
     = Raise (Exc "ValueError" "Premature end of line during sequence data").
Proof.
  split; [reflexivity|].
  apply (filter_propagates_parser_error broken_parser_env 0 2000 "LOCUS"
           (firstn 2 example_records)).
  reflexivity.
Defined.

(** X3. What [fetch_records] returns when there is no session is not
    text: handed to [filter_and_parse_sequences], the empty list makes
    [StringIO] raise a TypeError. *)
Theorem filter_rejects_no_session_result (E : Externals) (self : NCBIRetriever)
    (w : World) (start max_records min_len max_len : Z) :
  webenv self = None \/ query_key self = None ->
  exists gb_text : py_value,
    fst (fetch_records E start max_records (self, w)) = Ret gb_text
    /\ filter_and_parse_sequences E gb_text min_len max_len
       = Raise (Exc "TypeError" "initial_value must be str or None, not list").
Proof.
  intros Hno. exists (PyList []).
  rewrite fetch_records_no_session by exact Hno. split; reflexivity.
Qed.

Lemma filter_rejects_no_session_result_witness :
  (webenv (fresh_retriever "me@example.org" "key") = None
   \/ query_key (fresh_retriever "me@example.org" "key") = None)
  /\ exists gb_text : py_value,
       fst (fetch_records (example_env false) 0 100
              (fresh_retriever "me@example.org" "key", empty_world []))
       = Ret gb_text
       /\ filter_and_parse_sequences (example_env false) gb_text 500 1000
          = Raise (Exc "TypeError" "initial_value must be str or None, not list").
Proof.
  split; [now left|].
  apply (filter_rejects_no_session_result (example_env false)
           (fresh_retriever "me@example.org" "key") (empty_world []) 0 100 500 1000).
  now left.
Defined.

(** X4. Wider bounds keep at least the same records: every record
    returned for [min_len, max_len] is returned for any range that
    contains it. *)
Theorem filter_monotone_in_bounds (E : Externals) (gb_text : py_value)
    (min_len max_len min_len' max_len' : Z) (data data' : list Summary) :
  min_len' <= min_len ->
  max_len <= max_len' ->
  filter_and_parse_sequences E gb_text min_len max_len = Ret data ->
  filter_and_parse_sequences E gb_text min_len' max_len' = Ret data' ->
  incl data data'.
Proof.
  intros Hlo Hhi. unfold filter_and_parse_sequences.
  destruct (StringIO gb_text) as [handle|]; [|discriminate].
  destruct (SeqIO_parse E handle) as [records [e|]]; [discriminate|].
  rewrite !fold_filter_step. simpl.
  intros [= <-] [= <-] r Hin.
  apply in_map_iff in Hin as [record [<- Hin]].
  apply filter_In in Hin as [Hin Hrange].
  apply in_map, filter_In. split; [exact Hin|].
  unfold in_range in *. apply andb_prop in Hrange as [H1 H2].
  apply andb_true_intro. split; lia.
Qed.

Lemma filter_monotone_in_bounds_witness :
  500 <= 700
  /\ 1000 <= 1200
  /\ incl
       [ {| accession := "AB000750.1"; length_ := 750;
            description_ := "middle record" |} ]
       example_data.
Proof.
  split; [lia|]. split; [lia|].
  apply (filter_monotone_in_bounds (example_env false) (PyStr "LOCUS")
           700 1000 500 1200); [lia | lia | |]; vm_compute; reflexivity.
Defined.

(** ** The order of the chart, continued *)

Lemma sorted_reverse_of_sorted {A : Type} (key : A -> Z) (l : list A) :
  StronglySorted (key_ge key) l -> sorted_reverse key l = l.
Proof.
  induction 1 as [|x l Hl IH Hx]; [reflexivity|].
  simpl. rewrite IH.
  destruct l as [|y l']; [reflexivity|].
  simpl. apply List.Forall_inv in Hx. unfold key_ge in Hx.
  destruct (Z.ltb_spec (key x) (key y)); [lia|reflexivity].
Qed.

(** ** The client, continued *)

(** X6. With a session, [fetch_records] sends one request: database
    nucleotide, GenBank text, starting at [start], for
    [min(max_records, 500)] records, under the session's two handles.  The
    request is sent whatever the service then answers. *)
Theorem fetch_records_request_fields (E : Externals) (self : NCBIRetriever)
    (w : World) (start max_records : Z) (we qk : string) :
  webenv self = Some we ->
  query_key self = Some qk ->
  efetch_requests (trace (snd (snd (fetch_records E start max_records (self, w)))))
  = efetch_requests (trace w)
    ++ [ {| db := "nucleotide"; rettype := "gb"; retmode := "text";
            retstart := start; retmax := Z.min max_records 500;
            req_webenv := we; req_query_key := qk |} ].
Proof.
  intros Hwe Hqk.
  rewrite (fetch_records_session E self w start max_records we qk Hwe Hqk).
  destruct (nucleotide_efetch E (entrez w) _) as [[cls msg|cls]|text];
    simpl; now rewrite efetch_requests_app.
Qed.

Lemma fetch_records_request_fields_witness :
  webenv example_retriever = Some "MCID_1"
  /\ query_key example_retriever = Some "1"
  /\ efetch_requests
       (trace (snd (snd (fetch_records fetch_error_env 200 50
                           (example_retriever, empty_world [])))))
     = [ {| db := "nucleotide"; rettype := "gb"; retmode := "text";
            retstart := 200; retmax := 50;
            req_webenv := "MCID_1"; req_query_key := "1" |} ].
Proof.
  split; [reflexivity|]. split; [reflexivity|].
  apply (fetch_records_request_fields fetch_error_env example_retriever
           (empty_world []) 200 50 "MCID_1" "1"); reflexivity.
Defined.

(** X7. [fetch_records] reads the instance and never changes it, nor the
    Entrez settings, the files, the figures or the pending input: all it
    adds to the world is events. *)
Theorem fetch_records_read_only (E : Externals) (self : NCBIRetriever)
    (w : World) (start max_records : Z) :
  exists evs : list event,
    snd (fetch_records E start max_records (self, w)) = (self, add_events w evs)
    /\ forallb (fun e => negb (is_file_write e)) evs = true.
Proof.
  destruct (webenv self) as [we|] eqn:Hwe.
  - destruct (query_key self) as [qk|] eqn:Hqk.
    + rewrite (fetch_records_session E self w start max_records we qk Hwe Hqk).
      destruct (nucleotide_efetch E (entrez w) _) as [[cls msg|cls]|text];
        simpl; eexists; split; reflexivity.
    + rewrite fetch_records_no_session by (now right).
      simpl. eexists; split; reflexivity.
  - rewrite fetch_records_no_session by (now left).
    simpl. eexists; split; reflexivity.
Qed.

(** X8. A retriever as [__init__] leaves it has no session: the Entrez
    settings carry the email, the key and the tool name, and
    [fetch_records] on it returns the empty list without a request. *)
Theorem fresh_retriever_has_no_session (E : Externals) (email api_key : string)
    (w : World) (start max_records : Z) :
  exists (self : NCBIRetriever) (w0 : World),
    NCBIRetriever_init email api_key w = (Ret self, w0)
    /\ entrez w0
       = {| entrez_email := Some email; entrez_api_key := Some api_key;
            entrez_tool := Some "BioScriptEx10" |}
    /\ trace w0 = trace w
    /\ fetch_records E start max_records (self, w0)
       = (Ret (PyList []),
          (self,
           add_events w0
             [EvPrint "No search results to fetch. Run search_taxid() first."])).
Proof.
  eexists _, _. split; [reflexivity|]. split; [reflexivity|].
  split; [reflexivity|].
  apply fetch_records_no_session. now left.
Qed.

Section Search.

Context (E : Externals).

Local Arguments lookup : simpl never.

Ltac search_unfold :=
  unfold search_taxid, search_taxid_body;
  cbv [bind try_except lift get_entrez emit print of_sum ret raise index0 getitem
       int_ get_self set_self].

Ltac search_split :=
  repeat (simpl;
    match goal with
    | |- context [taxonomy_efetch E ?a ?b] =>
        destruct (taxonomy_efetch E a b) as [[? ?|?]|[|? ?]] eqn:?
    | |- context [nucleotide_esearch E ?a ?b] =>
        destruct (nucleotide_esearch E a b) as [[? ?|?]|?] eqn:?
    | |- context [@lookup _ _ _ _ ?k ?m] => destruct (m !! k) eqn:?
    | |- context [py_int E ?s] => destruct (py_int E s) eqn:?
    | |- context [Z.eqb ?n 0] => destruct (Z.eqb_spec n 0)
    end);
  repeat match goal with
         | H : inr _ = inr _ |- _ => injection H as <-
         end.

(** What is known when [search_taxid] returns a count. *)
Lemma search_taxid_count_inv (taxid : string) (self self' : NCBIRetriever)
    (w w' : World) (n : Z) :
  search_taxid E taxid (self, w) = (Ret (PyInt n), (self', w')) ->
  n <> 0
  /\ exists (res : gmap string string) (s we qk : string),
       nucleotide_esearch E (entrez w) (search_term taxid) = inr res
       /\ res !! "Count" = Some s /\ py_int E s = Some n
       /\ res !! "WebEnv" = Some we /\ res !! "QueryKey" = Some qk
       /\ self' = {| email := email self; api_key := api_key self;
                     webenv := Some we; query_key := Some qk;
                     count := Some n |}.
Proof.
  search_unfold. unfold search_term. search_split; simpl; try discriminate.
  intros [= <- <- <-]. split; [assumption|].
  eexists _, _, _, _. repeat split; eassumption || reflexivity.
Qed.

(** What is known when it does not. *)
Lemma search_taxid_no_count_inv (taxid : string) (self self' : NCBIRetriever)
    (w w' : World) (r : Outcome py_value) :
  search_taxid E taxid (self, w) = (r, (self', w')) ->
  (forall n : Z, r <> Ret (PyInt n)) ->
  email self' = email self /\ api_key self' = api_key self
  /\ query_key self' = query_key self /\ count self' = count self.
Proof.
  search_unfold. search_split; simpl; intros [= <- <- <-] Hr;
    try (now repeat split).
  now destruct (Hr _ eq_refl).
Qed.

(** The first events of a search, and that none of its events is a
    nucleotide fetch. *)
Lemma search_taxid_adds (taxid : string) (self : NCBIRetriever) (w : World) :
  exists evs : list event,
    snd (snd (search_taxid E taxid (self, w)))
    = add_events w
        (EvPrint ("Searching for records with taxID: " +:+ taxid)
         :: EvTaxonomyEfetch (entrez w) taxid :: evs)
    /\ efetch_requests evs = [].
Proof.
  search_unfold. search_split.
  all: eexists; split;
    [unfold add_events; simpl; rewrite <- ?app_assoc; simpl; reflexivity
    | reflexivity].
Qed.

(** [search_taxid] returns [None] or an int. *)
Lemma search_taxid_returns (taxid : string) (self self' : NCBIRetriever)
    (w w' : World) (c : py_value) :
  search_taxid E taxid (self, w) = (Ret c, (self', w')) ->
  c = PyNone \/ exists n : Z, c = PyInt n.
Proof.
  search_unfold. search_split; simpl; try discriminate;
    intros [= <- <- <-]; eauto.
Qed.

(** X9. [search_taxid] returns [None] or a count that is not zero, and
    nothing else; no [Exception] leaves it.  Only an exception outside
    [Exception] (an interrupt) passes through. *)
Theorem search_taxid_outcome (taxid : string) (self : NCBIRetriever) (w : World) :
  match fst (search_taxid E taxid (self, w)) with
  | Ret PyNone => True
  | Ret (PyInt n) => n <> 0
  | Ret _ => False
  | Raise (Exc _ _) => False
  | Raise (BaseExc _) => True
  end.
Proof.
  search_unfold. search_split; simpl; auto.
Qed.

(** X10. When [search_taxid] returns a count, the instance holds a
    complete session: [webenv] and [query_key] are the WebEnv and QueryKey
    of the search result, [count] is the count returned, which is the
    Count of the result and not zero; email and key are untouched. *)
Theorem search_taxid_count_sets_session (taxid : string)
    (self self' : NCBIRetriever) (w w' : World) (n : Z) :
  search_taxid E taxid (self, w) = (Ret (PyInt n), (self', w')) ->
  n <> 0
  /\ count self' = Some n
  /\ email self' = email self
  /\ api_key self' = api_key self
  /\ exists (res : gmap string string) (s : string),
       nucleotide_esearch E (entrez w) ("txid" +:+ taxid +:+ "[Organism]")
       = inr res
       /\ res !! "Count" = Some s /\ py_int E s = Some n
       /\ webenv self' = res !! "WebEnv" /\ is_Some (webenv self')
       /\ query_key self' = res !! "QueryKey" /\ is_Some (query_key self').
Proof.
  intros Hrun.
  apply search_taxid_count_inv in Hrun
    as [Hn [res [s [we [qk [Hres [Hcount [Hint [Hwe [Hqk ->]]]]]]]]]].
  simpl. repeat split; try assumption.
  exists res, s. rewrite Hwe, Hqk. repeat split; eauto.
Qed.

(** X11. After a search that returned a count, [fetch_records] on that
    instance has its session: in any later world it sends one request,
    under the handles of the search, and what it returns is never the
    empty list of the no-session case. *)
Theorem fetch_after_search (taxid : string) (self self' : NCBIRetriever)
    (w w' w'' : World) (n start max_records : Z) :
  search_taxid E taxid (self, w) = (Ret (PyInt n), (self', w')) ->
  exists we qk : string,
    webenv self' = Some we /\ query_key self' = Some qk
    /\ efetch_requests
         (trace (snd (snd (fetch_records E start max_records (self', w'')))))
       = efetch_requests (trace w'') ++ [fetch_request start max_records we qk]
    /\ fst (fetch_records E start max_records (self', w'')) <> Ret (PyList []).
Proof.
  intros Hrun.
  apply search_taxid_count_inv in Hrun
    as [_ [res [s [we [qk [_ [_ [_ [_ [_ ->]]]]]]]]]].
  exists we, qk. split; [reflexivity|]. split; [reflexivity|].
  set (session := {| email := email self; api_key := api_key self;
                     webenv := Some we; query_key := Some qk;
                     count := Some n |}).
  rewrite (fetch_records_session E session w'' start max_records we qk
             eq_refl eq_refl).
  destruct (nucleotide_efetch E (entrez w'') _) as [[cls msg|cls]|text]; simpl;
    (split; [now rewrite efetch_requests_app | discriminate]).
Qed.

(** X13. The requests of [search_taxid], in order: always the taxonomy
    lookup of the taxid first; then the nucleotide search for
    txid<taxid>[Organism], but only when the lookup returned a first
    record that has a ScientificName.  It sends nothing else, and changes
    nothing in the world but the trace. *)
Theorem search_taxid_requests (taxid : string) (self : NCBIRetriever) (w : World) :
  exists evs : list event,
    snd (snd (search_taxid E taxid (self, w))) = add_events w evs
    /\ List.filter is_network evs
       = EvTaxonomyEfetch (entrez w) taxid
         :: match taxonomy_efetch E (entrez w) taxid with
            | inr (first :: _) =>
                match first !! "ScientificName" with
                | Some _ =>
                    [EvEsearch (entrez w) ("txid" +:+ taxid +:+ "[Organism]")]
                | None => []
                end
            | _ => []
            end.
Proof.
  search_unfold. simpl.
  destruct (taxonomy_efetch E (entrez w) taxid) as [[? ?|?]|[|first ?]] eqn:Htax;
    simpl.
  1-3: eexists; split;
    [unfold add_events; simpl; rewrite <- ?app_assoc; simpl; reflexivity
    | reflexivity].
  destruct (first !! "ScientificName") eqn:Hname; simpl.
  2: { eexists; split;
       [unfold add_events; simpl; rewrite <- ?app_assoc; simpl; reflexivity
       | reflexivity]. }
  search_split.
  all: eexists; split;
    [unfold add_events; simpl; rewrite <- ?app_assoc; simpl; reflexivity
    | reflexivity].
Qed.

(** X14. When the search result has Count 0, [search_taxid] prints that
    no records were found for the organism, returns [None] and leaves the
    instance as it was. *)
Theorem search_taxid_zero_count (taxid organism s : string)
    (first : gmap string string) (others : list (gmap string string))
    (res : gmap string string) (self : NCBIRetriever) (w : World) :
  taxonomy_efetch E (entrez w) taxid = inr (first :: others) ->
  first !! "ScientificName" = Some organism ->
  nucleotide_esearch E (entrez w) ("txid" +:+ taxid +:+ "[Organism]") = inr res ->
  res !! "Count" = Some s ->
  py_int E s = Some 0 ->
  search_taxid E taxid (self, w)
  = (Ret PyNone,
     (self,
      add_events w
        [EvPrint ("Searching for records with taxID: " +:+ taxid);
         EvTaxonomyEfetch (entrez w) taxid;
         EvPrint ("Organism: " +:+ organism +:+ " (TaxID: " +:+ taxid +:+ ")");
         EvEsearch (entrez w) ("txid" +:+ taxid +:+ "[Organism]");
         EvPrint ("No records found for " +:+ organism)])).
Proof.
  intros Htax Hname Hres Hcount Hint.
  search_unfold. simpl. rewrite Htax. simpl. rewrite Hname. simpl.
  rewrite Hres. simpl. rewrite Hcount. simpl. rewrite Hint. simpl.
  unfold add_events. simpl. rewrite <- !app_assoc. reflexivity.
Qed.

(** X15. When the taxonomy lookup raises an [Exception], or returns no
    record, [search_taxid] prints the error, returns [None], sends no
    nucleotide search and leaves the instance as it was. *)
Theorem search_taxid_lookup_failure (taxid cls msg : string)
    (self : NCBIRetriever) (w : World) :
  taxonomy_efetch E (entrez w) taxid = inl (Exc cls msg)
  \/ (taxonomy_efetch E (entrez w) taxid = inr []
      /\ cls = "IndexError" /\ msg = "list index out of range") ->
  search_taxid E taxid (self, w)
  = (Ret PyNone,
     (self,
      add_events w
        [EvPrint ("Searching for records with taxID: " +:+ taxid);
         EvTaxonomyEfetch (entrez w) taxid;
         EvPrint ("Error searching TaxID " +:+ taxid +:+ ": " +:+ msg)])).
Proof.
  intros [Htax|[Htax [-> ->]]]; search_unfold; simpl; rewrite Htax; simpl;
    unfold add_events; simpl; rewrite <- !app_assoc; reflexivity.
Qed.

End Search.

Lemma search_taxid_count_sets_session_witness :
  let run := search_taxid (example_env false) "9606"
               (fresh_retriever "me@example.org" "key", empty_world []) in
  run = (Ret (PyInt 3), (fst (snd run), snd (snd run)))
  /\ 3 <> 0
  /\ count (fst (snd run)) = Some 3.
Proof.
  intros run.
  assert (Hrun : run = (Ret (PyInt 3), (fst (snd run), snd (snd run))))
    by (vm_compute; reflexivity).
  split; [exact Hrun|].
  destruct (search_taxid_count_sets_session (example_env false) "9606"
              (fresh_retriever "me@example.org" "key") (fst (snd run))
              (empty_world []) (snd (snd run)) 3 Hrun) as [Hn [Hcount _]].
  split; [exact Hn | exact Hcount].
Defined.

Lemma fetch_after_search_witness :
  let run := search_taxid (example_env false) "9606"
               (fresh_retriever "me@example.org" "key", empty_world []) in
  run = (Ret (PyInt 3), (fst (snd run), snd (snd run)))
  /\ exists we qk : string,
       webenv (fst (snd run)) = Some we /\ query_key (fst (snd run)) = Some qk
       /\ efetch_requests
            (trace (snd (snd (fetch_records (example_env false) 0 100
                                (fst (snd run), empty_world [])))))
          = [fetch_request 0 100 we qk]
       /\ fst (fetch_records (example_env false) 0 100
                 (fst (snd run), empty_world []))
          <> Ret (PyList []).
Proof.
  intros run.
  assert (Hrun : run = (Ret (PyInt 3), (fst (snd run), snd (snd run))))
    by (vm_compute; reflexivity).
  split; [exact Hrun|].
  exact (fetch_after_search (example_env false) "9606"
           (fresh_retriever "me@example.org" "key") (fst (snd run))
           (empty_world []) (snd (snd run)) (empty_world []) 3 0 100 Hrun).
Defined.

Lemma search_taxid_zero_count_witness :
  let w := empty_world [] in
  let first : gmap string string := {[ "ScientificName" := "Homo sapiens" ]} in
  let res : gmap string string := {[ "Count" := "0" ]} in
  taxonomy_efetch no_records_env (entrez w) "9606" = inr [first]
  /\ first !! "ScientificName" = Some "Homo sapiens"
  /\ nucleotide_esearch no_records_env (entrez w) "txid9606[Organism]" = inr res
  /\ res !! "Count" = Some "0"
  /\ py_int no_records_env "0" = Some 0
  /\ fst (search_taxid no_records_env "9606"
            (fresh_retriever "me@example.org" "key", w))
     = Ret PyNone.
Proof.
  intros w first res.
  repeat (split; [reflexivity|]).
  rewrite (search_taxid_zero_count no_records_env "9606" "Homo sapiens" "0"
             first [] res (fresh_retriever "me@example.org" "key") w
             eq_refl eq_refl eq_refl eq_refl eq_refl).
  reflexivity.
Defined.

Lemma search_taxid_lookup_failure_witness :
  taxonomy_efetch offline_env (entrez (empty_world [])) "9606"
  = inl (Exc "URLError" "Name or service not known")
  /\ search_taxid offline_env "9606"
       (fresh_retriever "me@example.org" "key", empty_world [])
     = (Ret PyNone,
        (fresh_retriever "me@example.org" "key",
         add_events (empty_world [])
           [EvPrint "Searching for records with taxID: 9606";
            EvTaxonomyEfetch (entrez (empty_world [])) "9606";
            EvPrint "Error searching TaxID 9606: Name or service not known"])).
Proof.
  split; [reflexivity|].
  apply (search_taxid_lookup_failure offline_env "9606" "URLError"
           "Name or service not known").
  left. reflexivity.
Defined.

(** ** Frames *)

Lemma adds_events_refl P w : adds_events P w w.
Proof. exists []. now rewrite app_nil_r. Qed.

Lemma adds_events_trans P w1 w2 w3 :
  adds_events P w1 w2 -> adds_events P w2 w3 -> adds_events P w1 w3.
Proof.
  intros [evs1 [H1 Q1]] [evs2 [H2 Q2]]. exists (evs1 ++ evs2). split.
  - now rewrite H2, H1, app_assoc.
  - now rewrite forallb_app, Q1, Q2.
Qed.

Lemma files_except_refl names w : files_except names w w.
Proof. now intros g _. Qed.

Lemma files_except_trans names w1 w2 w3 :
  files_except names w1 w2 -> files_except names w2 w3 -> files_except names w1 w3.
Proof. intros H1 H2 g Hg. now rewrite H2, H1. Qed.

Lemma files_except_weaken names names' w w' :
  incl names names' -> files_except names w w' -> files_except names' w w'.
Proof. intros Hincl H g Hg. apply H. intros Hin. apply Hg, Hincl, Hin. Qed.

(** A step that keeps a preorder on worlds, in a sequence. *)
Lemma bind_keeps (R : World -> World -> Prop) {A B} (m : M World A)
    (k : A -> M World B) (w : World) :
  (forall w1 w2 w3, R w1 w2 -> R w2 w3 -> R w1 w3) ->
  R w (snd (m w)) ->
  (forall (a : A) (w1 : World), R w1 (snd (k a w1))) ->
  R w (snd (bind m k w)).
Proof.
  intros Htrans Hm Hk. rewrite bind_run.
  destruct (m w) as [[a|e] w1]; simpl in *; [|exact Hm].
  eapply Htrans; [exact Hm | apply Hk].
Qed.

Lemma reports_to_refl names w : reports_to names w w.
Proof. split; [apply adds_events_refl | apply files_except_refl]. Qed.

Lemma reports_to_trans names w1 w2 w3 :
  reports_to names w1 w2 -> reports_to names w2 w3 -> reports_to names w1 w3.
Proof.
  intros [H1 F1] [H2 F2]. split;
    [eapply adds_events_trans | eapply files_except_trans]; eassumption.
Qed.

Lemma reports_to_weaken names names' w w' :
  incl names names' -> reports_to names w w' -> reports_to names' w w'.
Proof. intros Hincl [H F]. split; [exact H | eapply files_except_weaken; eassumption]. Qed.

Lemma emit_reports names (e : event) (w : World) :
  is_network e = false -> reports_to names w (snd (emit e w)).
Proof.
  intros He. split.
  - exists [e]. simpl. now rewrite He.
  - now intros g _.
Qed.

Lemma plt_reports (E : Externals) (op : plt_op) (filename : string) (w : World) :
  (forall f, op = PltSavefig f -> f = filename) ->
  reports_to [filename] w (snd (plt E op w)).
Proof.
  intros Hop. unfold plt. rewrite bind_run. simpl.
  destruct (plt_raises E op) as [e|]; simpl.
  - split; [now exists [EvPlt op] | now intros g _].
  - split.
    + exists [EvPlt op]. now destruct op.
    + intros g Hg. destruct op; simpl; try reflexivity.
      rewrite (Hop _ eq_refl). apply lookup_insert_ne.
      intros ->. apply Hg. now left.
Qed.

Lemma plot_data_reports (E : Externals) (data : list Summary) (filename : string)
    (w : World) :
  reports_to [filename] w (snd (plot_data E data filename w)).
Proof.
  unfold plot_data. cbv zeta.
  do 9 (apply (bind_keeps (reports_to [filename]));
          [apply reports_to_trans
          | first [ apply plt_reports; intros f; try discriminate;
                    now intros [= <-]
                  | now apply emit_reports ]
          | intros _ ? ]).
  apply plt_reports. discriminate.
Qed.

Lemma csv_writerow_reports (filename : string) (row : list py_value) (w : World) :
  reports_to [filename] w (snd (csv_writerow filename row w)).
Proof.
  rewrite csv_writerow_spec. simpl. split.
  - now exists [EvWriteRow filename row].
  - intros g Hg. simpl. apply lookup_insert_ne. intros ->. apply Hg. now left.
Qed.

Lemma for_each_reports {A} (names : list string) (xs : list A)
    (body : A -> M World unit) (w : World) :
  (forall x w1, reports_to names w1 (snd (body x w1))) ->
  reports_to names w (snd (for_each xs body w)).
Proof.
  intros Hbody. revert w.
  induction xs as [|x xs IH]; intros w; simpl.
  - apply reports_to_refl.
  - apply (bind_keeps (reports_to names));
      [apply reports_to_trans | apply Hbody | intros _ w1; apply IH].
Qed.

Lemma finally_reports {A} names (body : M World A) (cleanup : M World unit) w :
  reports_to names w (snd (body w)) ->
  (forall w1, reports_to names w1 (snd (cleanup w1))) ->
  reports_to names w (snd (finally body cleanup w)).
Proof.
  intros Hb Hc. unfold finally.
  destruct (body w) as [[a|e] w1]; simpl in Hb;
    specialize (Hc w1); destruct (cleanup w1) as [[?|?] w2]; simpl in *;
    eapply reports_to_trans; eassumption.
Qed.

Lemma save_csv_reports (E : Externals) (data : list Summary) (filename : string)
    (w : World) :
  reports_to [filename] w (snd (save_csv E data filename w)).
Proof.
  unfold save_csv.
  apply (bind_keeps (reports_to [filename])); [apply reports_to_trans| |intros _ w1].
  { unfold open_w.
    apply (bind_keeps (reports_to [filename]));
      [apply reports_to_trans | now apply emit_reports | intros _ w1].
    destruct (open_write E filename); simpl;
      [apply reports_to_refl|].
    split; [exists []; simpl; now rewrite app_nil_r|].
    intros g Hg. simpl. apply lookup_insert_ne. intros ->. apply Hg. now left. }
  apply (bind_keeps (reports_to [filename])); [apply reports_to_trans| |intros _ w2].
  { apply finally_reports; [|intros w2; now apply emit_reports].
    apply (bind_keeps (reports_to [filename]));
      [apply reports_to_trans | apply csv_writerow_reports | intros _ w2].
    apply for_each_reports. intros x w3. apply csv_writerow_reports. }
  now apply emit_reports.
Qed.

Lemma main_report_reports (E : Externals) (taxid : string)
    (filtered : option (list Summary)) (w : World) :
  reports_to ["taxid_" +:+ taxid +:+ "_filtered.csv";
              "taxid_" +:+ taxid +:+ "_chart.png"] w
    (snd (main_report E taxid filtered w)).
Proof.
  unfold main_report.
  destruct filtered as [[|r data]|]; try (now apply emit_reports).
  cbv zeta.
  apply (bind_keeps (reports_to _)); [apply reports_to_trans| |intros _ w1].
  { eapply reports_to_weaken; [|apply save_csv_reports].
    intros g [<-|[]]. now left. }
  apply (bind_keeps (reports_to _)); [apply reports_to_trans| |intros _ w2].
  { eapply reports_to_weaken; [|apply plot_data_reports].
    intros g [<-|[]]. right. now left. }
  now apply emit_reports.
Qed.

Lemma no_network_no_fetch (evs : list event) :
  forallb (fun e => negb (is_network e)) evs = true -> efetch_requests evs = [].
Proof.
  induction evs as [|e evs IH]; [reflexivity|].
  simpl. intros H. apply andb_prop in H as [He Hevs].
  destruct e; simpl in *; try discriminate; now apply IH.
Qed.

(** What is known of a run of [main_filtered] that returns. *)
Lemma main_filtered_inv (E : Externals) (w w1 : World) (taxid : string)
    (c : py_value) (filtered : option (list Summary)) :
  main_filtered E w = (Ret (taxid, c, filtered), w1) ->
  exists (email api_key min_str max_str : string) (rest : list string)
         (min_len max_len : Z) (self1 : NCBIRetriever) (ws : World),
    stdin w = email :: api_key :: taxid :: min_str :: max_str :: rest
    /\ py_int E min_str = Some min_len
    /\ py_int E max_str = Some max_len
    /\ search_taxid E taxid
         (fresh_retriever email api_key, after_inputs w email api_key rest)
       = (Ret c, (self1, ws))
    /\ match filtered with
       | None => truthy c = false /\ w1 = ws
       | Some data =>
           truthy c = true
           /\ exists (text : py_value) (self2 : NCBIRetriever) (wf : World),
                fetch_records E 0 100 (self1, add_events ws [EvPrint fetching_line])
                = (Ret text, (self2, wf))
                /\ filter_and_parse_sequences E text min_len max_len = Ret data
                /\ w1 = add_events wf [EvPrint "Filtering and parsing sequences..."]
       end.
Proof.
  destruct w as [lines tr cfg fl figs].
  unfold main_filtered. cbv [bind input int_ NCBIRetriever_init set_entrez ret raise].
  simpl.
  destruct lines as [|email lines]; [discriminate|].
  destruct lines as [|api_key lines]; [discriminate|].
  destruct lines as [|taxid' lines]; [discriminate|].
  destruct lines as [|min_str lines]; [discriminate|].
  simpl.
  destruct (py_int E min_str) as [min_len|] eqn:Hmin; [|discriminate].
  destruct lines as [|max_str rest]; [discriminate|].
  simpl.
  destruct (py_int E max_str) as [max_len|] eqn:Hmax; [|discriminate].
  unfold call at 1.
  match goal with
  | |- context [search_taxid E taxid' ?s] =>
      destruct (search_taxid E taxid' s) as [[c'|e] [self1 ws]] eqn:Hsearch
  end; [|discriminate].
  destruct (truthy c') eqn:Htruthy; simpl.
  - unfold call, print, emit, of_outcome.
    match goal with
    | |- context [fetch_records E 0 100 ?s] =>
        destruct (fetch_records E 0 100 s) as [[text|e] [self2 wf]] eqn:Hfetch
    end; [|discriminate].
    destruct (filter_and_parse_sequences E text min_len max_len) as [data|e] eqn:Hfilter;
      [|discriminate].
    intros [= <- <- <- <-].
    exists email, api_key, min_str, max_str, rest, min_len, max_len, self1, ws.
    repeat split; try assumption.
    + rewrite <- Hsearch. f_equal. f_equal. unfold after_inputs. simpl.
      rewrite <- !app_assoc. reflexivity.
    + exists text, self2, wf. repeat split; assumption.
  - intros [= <- <- <- <-].
    exists email, api_key, min_str, max_str, rest, min_len, max_len, self1, ws.
    repeat split; try assumption.
    rewrite <- Hsearch. f_equal. f_equal. unfold after_inputs. simpl.
    rewrite <- !app_assoc. reflexivity.
Qed.


(** ** The table, continued *)

(** X17. When the file cannot be opened, [save_csv] raises the error of
    [open] at once: no row is written, nothing is printed, and the files
    are as they were, a file of that name included. *)
Theorem save_csv_open_failure (E : Externals) (data : list Summary)
    (filename : string) (w : World) (e : exn) :
  open_write E filename = Some e ->
  exists w' : World,
    save_csv E data filename w = (Raise e, w')
    /\ trace w' = trace w ++ [EvOpenWrite filename]
    /\ files w' = files w.
Proof.
  intros Hopen. eexists. split; [now apply save_csv_fail|].
  split; reflexivity.
Qed.

Lemma save_csv_open_failure_witness :
  open_write read_only_env "taxid_9606_filtered.csv"
  = Some (Exc "PermissionError" "Permission denied")
  /\ exists w' : World,
       save_csv read_only_env example_data "taxid_9606_filtered.csv"
         (empty_world [])
       = (Raise (Exc "PermissionError" "Permission denied"), w')
       /\ trace w' = [EvOpenWrite "taxid_9606_filtered.csv"]
       /\ files w' = ∅.
Proof.
  split; [reflexivity|].
  apply (save_csv_open_failure read_only_env example_data
           "taxid_9606_filtered.csv" (empty_world [])).
  reflexivity.
Defined.

(** X18. Whatever happens, [save_csv] changes no file but the one it is
    given, and sends no request. *)
Theorem save_csv_touches_only_its_file (E : Externals) (data : list Summary)
    (filename g : string) (w : World) :
  g <> filename ->
  files (snd (save_csv E data filename w)) !! g = files w !! g
  /\ exists evs : list event,
       trace (snd (save_csv E data filename w)) = trace w ++ evs
       /\ forallb (fun e => negb (is_network e)) evs = true.
Proof.
  intros Hg. destruct (save_csv_reports E data filename w) as [Hevs Hfiles].
  split; [|exact Hevs].
  apply Hfiles. intros [<-|[]]. now apply Hg.
Qed.

Lemma save_csv_touches_only_its_file_witness :
  "notes.txt" <> "taxid_9606_filtered.csv"
  /\ files (snd (save_csv (example_env false) example_data
                   "taxid_9606_filtered.csv" (empty_world [])))
     !! "notes.txt"
     = files (empty_world []) !! "notes.txt".
Proof.
  split; [discriminate|].
  apply (save_csv_touches_only_its_file (example_env false) example_data
           "taxid_9606_filtered.csv" "notes.txt" (empty_world [])).
  discriminate.
Defined.

(** ** The chart, continued *)

Lemma combine_map {A B C} (f : A -> B) (g : A -> C) (l : list A) :
  combine (map f l) (map g l) = map (fun x => (f x, g x)) l.
Proof. induction l as [|x l IH]; simpl; [reflexivity | now rewrite IH]. Qed.

Lemma StronglySorted_map_key {A} (key : A -> Z) (l : list A) :
  StronglySorted (key_ge key) l ->
  StronglySorted (fun a b => a >= b) (map key l).
Proof.
  induction 1 as [|x l Hl IH Hx]; simpl; constructor; [exact IH|].
  apply List.Forall_map. exact Hx.
Qed.

(** X20. When no pyplot call raises, the image file holds one line with
    marker o, on a 12 by 6 figure with the labels, the title and the
    rotation of the script; the line has one point per record, its
    lengths are in descending order, and its (accession, length) pairs
    are those of the input. *)
Theorem plot_data_chart_points (E : Externals) (data : list Summary)
    (filename : string) (w : World) :
  List.Forall (fun op => plt_raises E op = None) (chart_setup data) ->
  plt_raises E (PltSavefig filename) = None ->
  plt_raises E PltClose = None ->
  exists (w' : World) (xs : list string) (ys : list Z),
    plot_data E data filename w = (Ret tt, w')
    /\ files w' !! filename
       = Some (PngFile
                 {| figsize := Some (12, 6);
                    lines := [(xs, ys, "o")];
                    xticks_rotation := Some 90;
                    xlabel := Some "GenBank Accession Number";
                    ylabel := Some "Sequence Length";
                    title := Some "Sequence Lengths by GenBank Accession";
                    tight := true |})
    /\ List.length xs = List.length data
    /\ List.length ys = List.length data
    /\ StronglySorted (fun a b => a >= b) ys
    /\ Permutation (combine xs ys)
         (map (fun r => (accession r, length_ r)) data).
Proof.
  intros Hsetup Hsave Hclose.
  exists (with_files
            (add_events w
               (map EvPlt (chart_setup data)
                ++ [EvPlt (PltSavefig filename);
                    EvPrint ("Chart saved to " +:+ filename);
                    EvPlt PltClose]))
            (<[filename := PngFile (chart_figure data)]> (files w))),
    (map accession (data_sorted data)), (map length_ (data_sorted data)).
  split; [now apply plot_data_ok|].
  split; [simpl; apply lookup_insert_eq|].
  pose proof (sorted_reverse_perm length_ data) as Hperm.
  fold (data_sorted data) in Hperm.
  split; [rewrite length_map; symmetry; now apply Permutation_length|].
  split; [rewrite length_map; symmetry; now apply Permutation_length|].
  split; [apply StronglySorted_map_key, sorted_reverse_sorted|].
  rewrite combine_map. symmetry. now apply Permutation_map.
Qed.

Lemma plot_data_chart_points_witness :
  List.Forall (fun op => plt_raises (example_env false) op = None)
    (chart_setup example_data)
  /\ plt_raises (example_env false) (PltSavefig "taxid_9606_chart.png") = None
  /\ plt_raises (example_env false) PltClose = None
  /\ exists (w' : World) (xs : list string) (ys : list Z),
       plot_data (example_env false) example_data "taxid_9606_chart.png"
         (empty_world [])
       = (Ret tt, w')
       /\ List.length xs = 2%nat
       /\ List.length ys = 2%nat
       /\ StronglySorted (fun a b => a >= b) ys.
Proof.
  assert (Hsetup : List.Forall (fun op => plt_raises (example_env false) op = None)
                     (chart_setup example_data))
    by (repeat constructor).
  split; [exact Hsetup|]. split; [reflexivity|]. split; [reflexivity|].
  destruct (plot_data_chart_points (example_env false) example_data
              "taxid_9606_chart.png" (empty_world []) Hsetup eq_refl eq_refl)
    as (w' & xs & ys & Hrun & _ & Hxs & Hys & Hsorted & _).
  exists w', xs, ys. repeat split; assumption.
Defined.

(** X21. Whatever happens, [plot_data] changes no file but the one it is
    given, and sends no request. *)
Theorem plot_data_touches_only_its_file (E : Externals) (data : list Summary)
    (filename g : string) (w : World) :
  g <> filename ->
  files (snd (plot_data E data filename w)) !! g = files w !! g
  /\ exists evs : list event,
       trace (snd (plot_data E data filename w)) = trace w ++ evs
       /\ forallb (fun e => negb (is_network e)) evs = true.
Proof.
  intros Hg. destruct (plot_data_reports E data filename w) as [Hevs Hfiles].
  split; [|exact Hevs].
  apply Hfiles. intros [<-|[]]. now apply Hg.
Qed.

Lemma plot_data_touches_only_its_file_witness :
  "taxid_9606_filtered.csv" <> "taxid_9606_chart.png"
  /\ files (snd (plot_data (example_env true) example_data
                   "taxid_9606_chart.png" (empty_world [])))
     !! "taxid_9606_filtered.csv"
     = files (empty_world []) !! "taxid_9606_filtered.csv".
Proof.
  split; [discriminate|].
  apply (plot_data_touches_only_its_file (example_env true) example_data
           "taxid_9606_chart.png" "taxid_9606_filtered.csv" (empty_world [])).
  discriminate.
Defined.

(** ** The orchestrator, continued *)

Section Runs.

Context (E : Externals).

(** The taxid of a run is the third line of input. *)
Lemma main_filtered_taxid (w w1 : World) (email api_key taxid taxid' : string)
    (rest : list string) (c : py_value) (filtered : option (list Summary)) :
  stdin w = email :: api_key :: taxid :: rest ->
  main_filtered E w = (Ret (taxid', c, filtered), w1) ->
  taxid' = taxid.
Proof.
  intros Hin Hrun.
  apply main_filtered_inv in Hrun
    as (e' & k' & mn & mx & rest' & a & b & self1 & ws & Hin' & _).
  congruence.
Qed.

(** X22. Whatever happens in a run of [main], a file whose name is
    neither taxid_<taxid>_filtered.csv nor taxid_<taxid>_chart.png, for
    the taxid read as third input, is after the run what it was before. *)
Theorem main_touches_only_outputs (w : World) (email api_key taxid : string)
    (rest : list string) (g : string) :
  stdin w = email :: api_key :: taxid :: rest ->
  g <> "taxid_" +:+ taxid +:+ "_filtered.csv" ->
  g <> "taxid_" +:+ taxid +:+ "_chart.png" ->
  files (snd (main E w)) !! g = files w !! g.
Proof.
  intros Hin Hcsv Hchart.
  rewrite main_decompose.
  pose proof (main_filtered_writes_no_file E w) as [Hfiles _].
  destruct (main_filtered E w) as [[[[taxid' c] filtered]|e] w1] eqn:Hrun;
    simpl in *; [|now rewrite Hfiles].
  rewrite (main_filtered_taxid w w1 email api_key taxid taxid' rest c filtered
             Hin Hrun).
  destruct (main_report_reports E taxid filtered w1) as [_ Hexcept].
  rewrite Hexcept, Hfiles; [reflexivity|].
  intros [<-|[<-|[]]]; congruence.
Qed.

(** X23. When the filtered list is not empty and the table cannot be
    opened, [main] ends with the error of [open]: the chart is not
    attempted, and the files and figures are as before the run. *)
Theorem main_table_open_failure (w w1 : World) (taxid : string) (c : py_value)
    (r : Summary) (data : list Summary) (e : exn) :
  main_filtered E w = (Ret (taxid, c, Some (r :: data)), w1) ->
  open_write E ("taxid_" +:+ taxid +:+ "_filtered.csv") = Some e ->
  main E w
  = (Raise e,
     add_events w1 [EvOpenWrite ("taxid_" +:+ taxid +:+ "_filtered.csv")])
  /\ files w1 = files w
  /\ figures w1 = figures w.
Proof.
  intros Hrun Hopen.
  pose proof (main_filtered_writes_no_file E w) as [Hfiles [Hfigs _]].
  rewrite Hrun in Hfiles, Hfigs. simpl in *.
  rewrite main_decompose, Hrun. unfold main_report. cbv zeta.
  rewrite bind_run, (save_csv_fail E _ _ _ e Hopen).
  now repeat split.
Qed.


(** X25. [main] never returns silently: a run that returns ends with one
    of its three closing lines. *)
Theorem main_returns_after_final_message (w w' : World) :
  main E w = (Ret tt, w') ->
  last (trace w') = Some (EvPrint "No records found. Exiting.")
  \/ last (trace w') = Some (EvPrint "No sequences matched the length filter.")
  \/ last (trace w')
     = Some (EvPrint (String (Ascii.ascii_of_nat 10) "Task complete!")).
Proof.
  rewrite main_decompose.
  destruct (main_filtered E w) as [[[[taxid c] filtered]|e] w1]; [|discriminate].
  unfold main_report.
  destruct filtered as [[|r data]|].
  - intros [= <-]. right. left. apply last_snoc.
  - cbv zeta. rewrite bind_run.
    destruct (save_csv E _ _ w1) as [[[]|e] w2]; [|discriminate].
    rewrite bind_run.
    destruct (plot_data E _ _ w2) as [[[]|e] w3]; [|discriminate].
    intros [= <-]. right. right. apply last_snoc.
  - intros [= <-]. left. apply last_snoc.
Qed.

(** X26. With fewer than five lines on standard input, [main] ends with
    an EOFError, or with the ValueError of a minimum that is no int,
    before any request is sent or any file written. *)
Theorem main_short_input (w : World) :
  (length (stdin w) < 5)%nat ->
  exists (cls msg : string) (w' : World) (evs : list event),
    main E w = (Raise (Exc cls msg), w')
    /\ (cls = "EOFError" \/ cls = "ValueError")
    /\ trace w' = trace w ++ evs
    /\ forallb (fun e => negb (is_network e)) evs = true
    /\ files w' = files w.
Proof.
  destruct w as [lines tr cfg fl figs]. simpl. intros Hlen.
  unfold main. cbv [bind input int_ raise ret].
  do 4 (destruct lines as [|? lines]; simpl;
        [eexists _, _, _, _; split; [reflexivity|]; split; [now left|];
         simpl; split; [rewrite <- ?app_assoc; reflexivity|]; split; reflexivity|]).
  destruct (py_int E _); simpl.
  - destruct lines as [|? lines]; simpl in *; [|lia].
    eexists _, _, _, _; split; [reflexivity|]; split; [now left|];
      simpl; split; [rewrite <- ?app_assoc; reflexivity|]; split; reflexivity.
  - eexists _, _, _, _; split; [reflexivity|]; split; [now right|];
      simpl; split; [rewrite <- ?app_assoc; reflexivity|]; split; reflexivity.
Qed.

(** X16. The Entrez settings belong to the module, not to the instance:
    after a second retriever is constructed with another email and key,
    a search through the first one sends its taxonomy lookup under the
    settings of the second. *)
Theorem entrez_settings_are_shared (email1 key1 email2 key2 taxid : string)
    (w : World) :
  exists (r1 r2 : NCBIRetriever) (w1 w2 : World),
    NCBIRetriever_init email1 key1 w = (Ret r1, w1)
    /\ NCBIRetriever_init email2 key2 w1 = (Ret r2, w2)
    /\ email r1 = email1 /\ api_key r1 = key1
    /\ In (EvTaxonomyEfetch
             {| entrez_email := Some email2; entrez_api_key := Some key2;
                entrez_tool := Some "BioScriptEx10" |} taxid)
         (trace (snd (snd (search_taxid E taxid (r1, w2))))).
Proof.
  eexists _, _, _, _. split; [reflexivity|]. split; [reflexivity|].
  split; [reflexivity|]. split; [reflexivity|].
  match goal with
  | |- context [search_taxid E taxid (?r, ?w2)] =>
      destruct (search_taxid_adds E taxid r w2) as [evs [-> _]]
  end.
  simpl. apply in_or_app. right. right. now left.
Qed.
End Runs.

Lemma main_touches_only_outputs_witness :
  let w := empty_world ["me@example.org"; "key"; "9606"; "500"; "2000"] in
  stdin w = "me@example.org" :: "key" :: "9606" :: ["500"; "2000"]
  /\ "notes.txt" <> "taxid_9606_filtered.csv"
  /\ "notes.txt" <> "taxid_9606_chart.png"
  /\ files (snd (main (example_env false) w)) !! "notes.txt"
     = files w !! "notes.txt".
Proof.
  intros w. split; [reflexivity|]. split; [discriminate|]. split; [discriminate|].
  apply (main_touches_only_outputs (example_env false) w
           "me@example.org" "key" "9606" ["500"; "2000"] "notes.txt");
    [reflexivity | discriminate | discriminate].
Defined.

Lemma main_table_open_failure_witness :
  let w := empty_world ["me@example.org"; "key"; "9606"; "500"; "1000"] in
  let r := {| accession := "AB000750.1"; length_ := 750;
              description_ := "middle record" |} in
  main_filtered read_only_env w
  = (Ret ("9606", PyInt 3, Some [r]), snd (main_filtered read_only_env w))
  /\ open_write read_only_env "taxid_9606_filtered.csv"
     = Some (Exc "PermissionError" "Permission denied")
  /\ fst (main read_only_env w)
     = Raise (Exc "PermissionError" "Permission denied")
  /\ files (snd (main read_only_env w)) = ∅.
Proof.
  intros w r.
  assert (Hrun : main_filtered read_only_env w
                 = (Ret ("9606", PyInt 3, Some [r]),
                    snd (main_filtered read_only_env w)))
    by (vm_compute; reflexivity).
  split; [exact Hrun|]. split; [reflexivity|].
  destruct (main_table_open_failure read_only_env w
              (snd (main_filtered read_only_env w)) "9606" (PyInt 3) r []
              (Exc "PermissionError" "Permission denied") Hrun eq_refl)
    as [Hmain [Hfiles _]].
  rewrite Hmain. split; [reflexivity | exact Hfiles].
Defined.


Lemma main_returns_after_final_message_witness :
  let w := empty_world ["me@example.org"; "key"; "9606"; "5000"; "6000"] in
  main (example_env false) w = (Ret tt, snd (main (example_env false) w))
  /\ (last (trace (snd (main (example_env false) w)))
      = Some (EvPrint "No records found. Exiting.")
      \/ last (trace (snd (main (example_env false) w)))
         = Some (EvPrint "No sequences matched the length filter.")
      \/ last (trace (snd (main (example_env false) w)))
         = Some (EvPrint (String (Ascii.ascii_of_nat 10) "Task complete!"))).
Proof.
  intros w.
  assert (Hrun : main (example_env false) w
                 = (Ret tt, snd (main (example_env false) w)))
    by (vm_compute; reflexivity).
  split; [exact Hrun|].
  exact (main_returns_after_final_message (example_env false) w
           (snd (main (example_env false) w)) Hrun).
Defined.

Lemma main_short_input_witness :
  let w := empty_world ["me@example.org"; "key"] in
  (List.length (stdin w) < 5)%nat
  /\ exists (cls msg : string) (w' : World) (evs : list event),
       main (example_env false) w = (Raise (Exc cls msg), w')
       /\ (cls = "EOFError" \/ cls = "ValueError")
       /\ trace w' = trace w ++ evs
       /\ forallb (fun e => negb (is_network e)) evs = true
       /\ files w' = files w.
Proof.
  intros w. split; [simpl; lia|].
  apply (main_short_input (example_env false) w). simpl. lia.
Defined.


(** ** What is charted *)

(** The first two pyplot calls of [plot_data]: [plt.figure], and, unless
    that raises, [plt.plot] of the accessions and lengths of
    [data_sorted data]. *)
Lemma plot_data_first_calls (E : Externals) (data : list Summary)
    (filename : string) (w : World) :
  exists evs : list event,
    trace (snd (plot_data E data filename w))
    = trace w
      ++ EvPlt (PltFigure (12, 6))
         :: match plt_raises E (PltFigure (12, 6)) with
            | Some _ => []
            | None =>
                EvPlt (PltPlot (map accession (data_sorted data))
                         (map length_ (data_sorted data)) "o")
                :: evs
            end.
Proof.
  unfold plot_data. cbv zeta. rewrite bind_run.
  destruct (plt_raises E (PltFigure (12, 6))) as [e|] eqn:Hfigure.
  { rewrite (plt_fail E _ _ e Hfigure). now exists []. }
  rewrite (plt_ok E _ _ Hfigure). rewrite bind_run.
  remember (plt_effect (PltFigure (12, 6))
              (add_events w [EvPlt (PltFigure (12, 6))])) as w1 eqn:Ew1.
  assert (Hw1 : trace w1 = trace w ++ [EvPlt (PltFigure (12, 6))])
    by (subst w1; reflexivity).
  remember (PltPlot (map accession (data_sorted data))
              (map length_ (data_sorted data)) "o") as plot eqn:Eplot.
  destruct (plt_raises E plot) as [e|] eqn:Hplot.
  { rewrite (plt_fail E _ _ e Hplot). exists [].
    cbn [snd trace add_events]. rewrite Hw1, <- app_assoc. reflexivity. }
  rewrite (plt_ok E _ _ Hplot).
  remember (plt_effect plot (add_events w1 [EvPlt plot])) as w2 eqn:Ew2.
  assert (Hw2 : trace w2 = trace w ++ [EvPlt (PltFigure (12, 6)); EvPlt plot]).
  { subst w2 plot. cbn [plt_effect trace add_events].
    rewrite Hw1, <- app_assoc. reflexivity. }
  match goal with
  | |- context [snd (?rest w2)] =>
      assert (Hrest : reports_to [filename] w2 (snd (rest w2)))
  end.
  { do 7 (apply (bind_keeps (reports_to [filename]));
          [apply reports_to_trans
          | first [ apply plt_reports; intros f; try discriminate;
                    now intros [= <-]
                  | now apply emit_reports ]
          | intros _ ? ]).
    apply plt_reports. discriminate. }
  destruct Hrest as [[evs [Htrace _]] _].
  exists evs. rewrite Htrace, Hw2, <- app_assoc. reflexivity.
Qed.

(** C5. What [plot_data] charts: after [plt.figure], and unless that
    raises, its next action is [plt.plot] of the accessions and lengths of
    a list that is a permutation of the input, in descending order of
    length, with the records of any one length in the order they have in
    the input. *)
Theorem plot_data_charts_stable_descending (E : Externals)
    (data : list Summary) (filename : string) (w : World) :
  exists (charted : list Summary) (evs : list event),
    Permutation data charted
    /\ StronglySorted (fun a b => length_ a >= length_ b) charted
    /\ (forall k : Z,
          List.filter (fun r => length_ r =? k) charted
          = List.filter (fun r => length_ r =? k) data)
    /\ trace (snd (plot_data E data filename w))
       = trace w
         ++ EvPlt (PltFigure (12, 6))
            :: match plt_raises E (PltFigure (12, 6)) with
               | Some _ => []
               | None =>
                   EvPlt (PltPlot (map accession charted)
                            (map length_ charted) "o")
                   :: evs
               end.
Proof.
  destruct (plot_data_first_calls E data filename w) as [evs Htrace].
  destruct (data_sorted_stable_descending data) as [Hperm [Hsorted Hstable]].
  exists (data_sorted data), evs. repeat split; assumption.
Qed.

(** The run of the specification's order: the chart of two records in
    ascending order lists the longer one first. *)
Example plot_data_charts_example :
  nth_error
    (trace (snd (plot_data (example_env false) example_data
                   "taxid_9606_chart.png" (empty_world []))))
    1
  = Some (EvPlt (PltPlot ["AB001200.1"; "AB000750.1"] [1200; 750] "o")).
Proof. vm_compute. reflexivity. Qed.

(** C10, as stated, fails: on a text at which the parser raises, the
    exception leaves the function, inverted bounds or not. *)
Lemma filter_inverted_bounds_parser_raises :
  1000 > 500
  /\ filter_and_parse_sequences broken_parser_env (PyStr "LOCUS") 1000 500
     = Raise (Exc "ValueError" "Premature end of line during sequence data")
  /\ filter_and_parse_sequences broken_parser_env (PyStr "LOCUS") 1000 500
     <> Ret [].
Proof.
  split; [lia|]. split; [vm_compute; reflexivity|].
  vm_compute. discriminate.
Qed.

(** X5. A list that is already in descending order of length is charted
    as it is: unless [plt.figure] raises, [plt.plot] receives the
    accessions and the lengths of the input in the order of the input. *)
Theorem plot_data_charts_sorted_input_unchanged (E : Externals)
    (data : list Summary) (filename : string) (w : World) :
  StronglySorted (fun a b => length_ a >= length_ b) data ->
  exists evs : list event,
    trace (snd (plot_data E data filename w))
    = trace w
      ++ EvPlt (PltFigure (12, 6))
         :: match plt_raises E (PltFigure (12, 6)) with
            | Some _ => []
            | None =>
                EvPlt (PltPlot (map accession data) (map length_ data) "o")
                :: evs
            end.
Proof.
  intros Hsorted.
  destruct (plot_data_first_calls E data filename w) as [evs Htrace].
  exists evs. rewrite Htrace.
  unfold data_sorted.
  now rewrite (sorted_reverse_of_sorted length_ data Hsorted).
Qed.

Lemma plot_data_charts_sorted_input_unchanged_witness :
  StronglySorted (fun a b => length_ a >= length_ b) (rev example_data)
  /\ exists evs : list event,
       trace (snd (plot_data (example_env false) (rev example_data)
                     "taxid_9606_chart.png" (empty_world [])))
       = EvPlt (PltFigure (12, 6))
         :: EvPlt (PltPlot ["AB001200.1"; "AB000750.1"] [1200; 750] "o")
         :: evs.
Proof.
  assert (H : StronglySorted (fun a b => length_ a >= length_ b)
                (rev example_data)).
  { simpl. repeat constructor. simpl. lia. }
  split; [exact H|].
  exact (plot_data_charts_sorted_input_unchanged (example_env false)
           (rev example_data) "taxid_9606_chart.png" (empty_world []) H).
Defined.

(** X12. A search that does not return a count assigns neither
    [query_key] nor [count], and leaves email and key alone; so on an
    instance that had no [query_key], [fetch_records] afterwards returns
    the empty list and sends nothing. *)
Theorem failed_search_leaves_no_session (E : Externals) (taxid : string)
    (self self' : NCBIRetriever) (w w' : World) (r : Outcome py_value)
    (start max_records : Z) :
  search_taxid E taxid (self, w) = (r, (self', w')) ->
  (forall n : Z, r <> Ret (PyInt n)) ->
  query_key self' = query_key self
  /\ count self' = count self
  /\ email self' = email self
  /\ api_key self' = api_key self
  /\ (query_key self = None ->
      fetch_records E start max_records (self', w')
      = (Ret (PyList []),
         (self',
          add_events w'
            [EvPrint "No search results to fetch. Run search_taxid() first."]))).
Proof.
  intros Hrun Hr.
  destruct (search_taxid_no_count_inv E taxid self self' w w' r Hrun Hr)
    as [Hemail [Hkey [Hqk Hcount]]].
  repeat split; try assumption.
  intros Hnone. apply fetch_records_no_session. right. congruence.
Qed.

Lemma failed_search_leaves_no_session_witness :
  let run := search_taxid no_records_env "9606"
               (fresh_retriever "me@example.org" "key", empty_world []) in
  run = (Ret PyNone, (fst (snd run), snd (snd run)))
  /\ query_key (fst (snd run)) = None
  /\ count (fst (snd run)) = None
  /\ fst (fetch_records no_records_env 0 100 (snd run)) = Ret (PyList []).
Proof.
  intros run.
  assert (Hrun : run = (Ret PyNone, (fst (snd run), snd (snd run))))
    by (vm_compute; reflexivity).
  split; [exact Hrun|].
  destruct (failed_search_leaves_no_session no_records_env "9606"
              (fresh_retriever "me@example.org" "key") (fst (snd run))
              (empty_world []) (snd (snd run)) (Ret PyNone)
              0 100 Hrun) as (Hqk & Hcount & _ & _ & Hfetch);
    [intros n; discriminate|].
  split; [exact Hqk|]. split; [exact Hcount|].
  rewrite (surjective_pairing (snd run)), (Hfetch eq_refl). reflexivity.
Defined.

(** The cells of a row give the record back. *)
Lemma dict_to_list_inj (data1 data2 : list Summary) :
  map dict_to_list data1 = map dict_to_list data2 -> data1 = data2.
Proof.
  revert data2.
  induction data1 as [|r1 data1 IH]; intros [|r2 data2]; simpl;
    try discriminate; [reflexivity|].
  intros [= Hacc Hlen Hdesc Hrest].
  destruct r1, r2. simpl in *. subst. f_equal. now apply IH.
Qed.

(** X19. The file [save_csv] writes determines the records: if two calls
    that open their file leave files of the same content, they were given
    the same list of records. *)
Theorem save_csv_file_determines_data (E : Externals)
    (data1 data2 : list Summary) (filename1 filename2 : string)
    (w1 w2 : World) :
  open_write E filename1 = None ->
  open_write E filename2 = None ->
  files (snd (save_csv E data1 filename1 w1)) !! filename1
  = files (snd (save_csv E data2 filename2 w2)) !! filename2 ->
  data1 = data2.
Proof.
  intros Hopen1 Hopen2.
  rewrite (save_csv_ok E data1 filename1 w1 Hopen1).
  rewrite (save_csv_ok E data2 filename2 w2 Hopen2).
  simpl. rewrite !lookup_insert_eq.
  intros [= Hrows]. apply dict_to_list_inj. exact Hrows.
Qed.

Lemma save_csv_file_determines_data_witness :
  open_write (example_env false) "a.csv" = None
  /\ open_write (example_env false) "b.csv" = None
  /\ files (snd (save_csv (example_env false) example_data "a.csv"
                   (empty_world [])))
     !! "a.csv"
     = files (snd (save_csv (example_env false) example_data "b.csv"
                     (empty_world ["pending"])))
       !! "b.csv"
  /\ example_data = example_data.
Proof.
  split; [reflexivity|]. split; [reflexivity|].
  assert (H : files (snd (save_csv (example_env false) example_data "a.csv"
                            (empty_world [])))
              !! "a.csv"
              = files (snd (save_csv (example_env false) example_data "b.csv"
                              (empty_world ["pending"])))
                !! "b.csv")
    by (vm_compute; reflexivity).
  split; [exact H|].
  exact (save_csv_file_determines_data (example_env false) example_data
           example_data "a.csv" "b.csv" (empty_world [])
           (empty_world ["pending"]) eq_refl eq_refl H).
Defined.

(** X27. A run of [main] that gets past the search sends no nucleotide
    fetch when the search returned no count, and otherwise exactly one:
    for 100 records from offset 0, under the WebEnv and the QueryKey that
    the search for txid<taxid>[Organism] returned under the settings of
    the email and key read from input.  The writers send none. *)
Theorem main_fetches_one_batch (E : Externals) (w w1 : World) (taxid : string)
    (c : py_value) (filtered : option (list Summary)) :
  main_filtered E w = (Ret (taxid, c, filtered), w1) ->
  exists sent : list EfetchRequest,
    efetch_requests (trace (snd (main E w))) = efetch_requests (trace w) ++ sent
    /\ match filtered with
       | None => sent = []
       | Some _ =>
           exists (email api_key : string) (rest : list string)
                  (res : gmap string string) (we qk : string),
             stdin w = email :: api_key :: taxid :: rest
             /\ nucleotide_esearch E
                  {| entrez_email := Some email; entrez_api_key := Some api_key;
                     entrez_tool := Some "BioScriptEx10" |}
                  ("txid" +:+ taxid +:+ "[Organism]")
                = inr res
             /\ res !! "WebEnv" = Some we
             /\ res !! "QueryKey" = Some qk
             /\ sent = [ {| db := "nucleotide"; rettype := "gb";
                            retmode := "text"; retstart := 0; retmax := 100;
                            req_webenv := we; req_query_key := qk |} ]
       end.
Proof.
  intros Hrun.
  rewrite main_decompose, Hrun.
  destruct (main_report_reports E taxid filtered w1) as [[evs3 [Ht3 Hq3]] _].
  apply no_network_no_fetch in Hq3.
  rewrite Ht3, efetch_requests_app, Hq3, app_nil_r.
  apply main_filtered_inv in Hrun
    as (email & api_key & mn & mx & rest & a & b & self1 & ws
        & Hin & Hmin & Hmax & Hsearch & Hrest).
  destruct (search_taxid_adds E taxid (fresh_retriever email api_key)
              (after_inputs w email api_key rest)) as [evs1 [Hws Hq1]].
  rewrite Hsearch in Hws. simpl in Hws.
  assert (Hfetch0 : efetch_requests (trace ws) = efetch_requests (trace w)).
  { rewrite Hws. simpl. rewrite !efetch_requests_app. simpl.
    now rewrite Hq1, !app_nil_r. }
  destruct filtered as [data|].
  - destruct Hrest as [Htruthy [text [self2 [wf [Hfetch [_ ->]]]]]].
    destruct (search_taxid_returns E _ _ _ _ _ _ Hsearch) as [->|[n ->]];
      [discriminate|].
    apply search_taxid_count_inv in Hsearch
      as [_ [res [s [we [qk [Hres [_ [_ [Hwe [Hqk ->]]]]]]]]]].
    match type of Hfetch with
    | fetch_records E 0 100 (?s, _) = _ => set (session := s) in *
    end.
    rewrite (fetch_records_session E session _ 0 100 we qk eq_refl eq_refl)
      in Hfetch.
    exists [fetch_request 0 100 we qk]. split.
    + destruct (nucleotide_efetch E _ _) as [[cls msg|cls]|records_text];
        try discriminate; injection Hfetch as <- <- <-; simpl;
        rewrite !efetch_requests_app; simpl; rewrite Hfetch0;
        now rewrite ?app_nil_r.
    + exists email, api_key, (mn :: mx :: rest), res, we, qk.
      repeat split; assumption.
  - destruct Hrest as [_ ->]. exists []. now rewrite app_nil_r.
Qed.

Lemma main_fetches_one_batch_witness :
  let w := empty_world ["me@example.org"; "key"; "9606"; "500"; "1000"] in
  let r := {| accession := "AB000750.1"; length_ := 750;
              description_ := "middle record" |} in
  main_filtered (example_env false) w
  = (Ret ("9606", PyInt 3, Some [r]), snd (main_filtered (example_env false) w))
  /\ exists sent : list EfetchRequest,
       efetch_requests (trace (snd (main (example_env false) w)))
       = efetch_requests (trace w) ++ sent
       /\ exists (email api_key : string) (rest : list string)
                 (res : gmap string string) (we qk : string),
            stdin w = email :: api_key :: "9606" :: rest
            /\ nucleotide_esearch (example_env false)
                 {| entrez_email := Some email; entrez_api_key := Some api_key;
                    entrez_tool := Some "BioScriptEx10" |}
                 "txid9606[Organism]"
               = inr res
            /\ res !! "WebEnv" = Some we
            /\ res !! "QueryKey" = Some qk
            /\ sent = [ {| db := "nucleotide"; rettype := "gb";
                           retmode := "text"; retstart := 0; retmax := 100;
                           req_webenv := we; req_query_key := qk |} ].
Proof.
  intros w r.
  assert (Hrun : main_filtered (example_env false) w
                 = (Ret ("9606", PyInt 3, Some [r]),
                    snd (main_filtered (example_env false) w)))
    by (vm_compute; reflexivity).
  split; [exact Hrun|].
  exact (main_fetches_one_batch (example_env false) w
           (snd (main_filtered (example_env false) w)) "9606" (PyInt 3)
           (Some [r]) Hrun).
Defined.
